(** * User & Profile service: the request handlers of [main.py]

    The service keeps four process-wide dictionaries ([users],
    [user_secrets], [profiles], [profiles_by_user]) and exposes CRUD
    handlers over them.  The handlers are embedded here as computations in
    a small state-and-exception monad over a record of the four
    dictionaries, so that a handler which raises still reports the stores
    as it left them.  Lower-casing is a parameter of the model; the sample
    runs at the end of the file use ASCII strings. *)

From stdpp Require Import gmap strings list fin_maps.
From Stdlib Require Import Ascii String.

Local Open Scope string_scope.
Local Open Scope list_scope.
Local Open Scope stdpp_scope.

(** ** Values *)

(** A [uuid.UUID] is a 128-bit number. *)
Abbreviation UUID := N.

(** [datetime] values are only stored and carried around. *)
Abbreviation datetime := Z.

(** [str.lower()].  Python lower-cases a string by the Unicode case
    mappings.  The handlers only compare lower-cased strings with each
    other, so the service is modelled over an arbitrary lower-casing
    function, and every property of the handlers is proved for all of them. *)
Class StrLower := lower : string → string.

(** [str.lower()] on strings of ASCII characters: it maps the letters A to
    Z to a to z and leaves every other character as it is.  The sample
    requests further down are ASCII strings; the handlers are run on them
    with this function. *)
Definition lower_ascii (c : ascii) : ascii :=
  let n := nat_of_ascii c in
  if Nat.leb 65 n && Nat.leb n 90 then ascii_of_nat (n + 32) else c.

Fixpoint lower_ascii_string (s : string) : string :=
  match s with
  | EmptyString => EmptyString
  | String c r => String (lower_ascii c) (lower_ascii_string r)
  end.

Definition ascii_lower : StrLower := lower_ascii_string.

(** Python truthiness of the result of [changes.get(key)] for a string
    field: [None] and the empty string are falsy. *)
Definition truthy (o : option string) : bool :=
  match o with
  | Some s => negb (String.eqb s "")
  | None => false
  end.

(** ** Request and record schemas *)

(** Modelled from the spec: the membership tier enumeration of
    [models/user.py] (FREE | PRO | PROMAX), which is not among the sources. *)
Inductive MembershipTier := FREE | PRO | PROMAX.

Definition tier_name (t : MembershipTier) : string :=
  match t with FREE => "FREE" | PRO => "PRO" | PROMAX => "PROMAX" end.

(** Modelled from the spec: the public user record of [models/user.py]
    (id, name, email, phone, membership tier, creation timestamp); the
    password is not a field of it. *)
Module UserRead.
Record t := mk {
  id : UUID;
  name : string;
  email : string;
  phone : string;
  membership_tier : MembershipTier;
  created_at : datetime;
}.
End UserRead.

(** Modelled from the spec: the creation request of [models/user.py],
    the public fields except the generated ones, plus the password. *)
Module UserCreate.
Record t := mk {
  name : string;
  email : string;
  phone : string;
  membership_tier : MembershipTier;
  password : string;
}.
End UserCreate.

(** Modelled from the spec: the partial-update request of
    [models/user.py].  A field is [None] when the request body does not
    carry it ([exclude_unset]) and [Some v] when it does. *)
Module UserUpdate.
Record t := mk {
  name : option string;
  email : option string;
  phone : option string;
  membership_tier : option MembershipTier;
  new_password : option string;
}.
End UserUpdate.

(** The value kept in [user_secrets]: [{"password": <plaintext>}]. *)
Record Secret := mkSecret { secret_password : string }.

(** Modelled from the spec: the profile record of [models/profile.py]
    (id, owning user id, username, plus descriptive fields).  The
    descriptive fields are kept as a dictionary from field name to value,
    as [model_dump] produces them. *)
Module ProfileRead.
Record t := mk {
  id : UUID;
  user_id : UUID;
  username : string;
  descriptive : gmap string string;
}.
End ProfileRead.

(** Modelled from the spec: the profile creation request of
    [models/profile.py]. *)
Module ProfileCreate.
Record t := mk {
  user_id : UUID;
  username : string;
  descriptive : gmap string string;
}.
End ProfileCreate.

(** Modelled from the spec: the profile partial-update request of
    [models/profile.py].  [descriptive] holds the descriptive fields the
    body carries.  The patch may carry a [user_id]: the handler merges
    whatever [model_dump(exclude_unset=True)] yields, and the spec speaks
    of patches that include one. *)
Module ProfileUpdate.
Record t := mk {
  user_id : option UUID;
  username : option string;
  descriptive : gmap string string;
}.
End ProfileUpdate.

(** ** The stores *)

Record Stores := mkStores {
  users : gmap UUID UserRead.t;
  user_secrets : gmap UUID Secret;
  profiles : gmap UUID ProfileRead.t;
  profiles_by_user : gmap UUID UUID;
}.

Definition empty_stores : Stores := mkStores ∅ ∅ ∅ ∅.

Definition set_users (f : gmap UUID UserRead.t → gmap UUID UserRead.t) (st : Stores) : Stores :=
  mkStores (f (users st)) (user_secrets st) (profiles st) (profiles_by_user st).

Definition set_user_secrets (f : gmap UUID Secret → gmap UUID Secret) (st : Stores) : Stores :=
  mkStores (users st) (f (user_secrets st)) (profiles st) (profiles_by_user st).

Definition set_profiles (f : gmap UUID ProfileRead.t → gmap UUID ProfileRead.t) (st : Stores) : Stores :=
  mkStores (users st) (user_secrets st) (f (profiles st)) (profiles_by_user st).

Definition set_profiles_by_user (f : gmap UUID UUID → gmap UUID UUID) (st : Stores) : Stores :=
  mkStores (users st) (user_secrets st) (profiles st) (f (profiles_by_user st)).

(** ** Handlers: state and [HTTPException] *)

Record HTTPException := mkHTTPException { status_code : nat; detail : string }.

(** A handler runs on the stores and yields the stores as it leaves them,
    together with either the exception it raised or its return value. *)
Definition Handler (A : Type) : Type := Stores → Stores * (HTTPException + A).

Definition hret {A} (a : A) : Handler A := λ st, (st, inr a).

Definition hbind {A B} (m : Handler A) (k : A → Handler B) : Handler B :=
  λ st, match m st with
        | (st', inl e) => (st', inl e)
        | (st', inr a) => k a st'
        end.

Definition raise {A} (e : HTTPException) : Handler A := λ st, (st, inl e).

(** Read the global stores. *)
Definition reads {A} (f : Stores → A) : Handler A := λ st, (st, inr (f st)).

(** Mutate the global stores. *)
Definition modify (f : Stores → Stores) : Handler unit := λ st, (f st, inr tt).

(** [if c: raise e] *)
Definition raise_if (c : bool) (e : HTTPException) : Handler unit :=
  if c then raise e else hret tt.

Notation "'let*' x ':=' m 'in' k" := (hbind m (λ x, k))
  (at level 10, x name, m at level 100, k at level 200).
Notation "m ';;;' k" := (hbind m (λ _, k))
  (at level 100, k at level 200, right associativity).

(** The values of a dictionary, as [d.values()] yields them.  A [gmap]
    lists its entries by key rather than by insertion; the order of a
    listing is left unspecified and no property below depends on it. *)
Definition values {V} (m : gmap UUID V) : list V := (map_to_list m).*2.

(** [exclude_id is None or x != exclude_id] *)
Definition not_excluded (exclude_id : option UUID) (x : UUID) : bool :=
  match exclude_id with
  | None => true
  | Some i => negb (N.eqb x i)
  end.

Section Service.
Context {L : StrLower}.

(** ** Helper functions *)

Definition _email_exists (email : string) (exclude_id : option UUID) (st : Stores) : bool :=
  let e := lower email in
  existsb (λ u, String.eqb (lower (UserRead.email u)) e
                && not_excluded exclude_id (UserRead.id u))
          (values (users st)).

Definition _phone_exists (phone : string) (exclude_id : option UUID) (st : Stores) : bool :=
  existsb (λ u, String.eqb (UserRead.phone u) phone
                && not_excluded exclude_id (UserRead.id u))
          (values (users st)).

Definition _username_exists (username : string) (exclude_id : option UUID) (st : Stores) : bool :=
  let target := lower username in
  existsb (λ '(pid, prof), String.eqb (lower (ProfileRead.username prof)) target
                           && not_excluded exclude_id pid)
          (map_to_list (profiles st)).

Definition _assert_user_exists (user_id : UUID) : Handler unit :=
  let* known := reads (λ st, bool_decide (is_Some (users st !! user_id))) in
  raise_if (negb known) (mkHTTPException 400 "User does not exist").

Definition _assert_user_has_no_profile (user_id : UUID) : Handler unit :=
  let* owned := reads (λ st, bool_decide (is_Some (profiles_by_user st !! user_id))) in
  raise_if owned (mkHTTPException 400 "User already has a profile").

(** ** Users CRUD *)

(** The public record built from the payload's dump without its password:
    the id and the creation timestamp come from the record's default
    factories; they are passed in as [new_id] and [now]. *)
Definition user_of_create (new_id : UUID) (now : datetime) (payload : UserCreate.t) : UserRead.t :=
  UserRead.mk new_id (UserCreate.name payload) (UserCreate.email payload)
    (UserCreate.phone payload) (UserCreate.membership_tier payload) now.

Definition create_user (new_id : UUID) (now : datetime) (payload : UserCreate.t)
  : Handler UserRead.t :=
  let* dup_email := reads (_email_exists (UserCreate.email payload) None) in
  raise_if dup_email (mkHTTPException 400 "Email already exists") ;;;
  let* dup_phone := reads (_phone_exists (UserCreate.phone payload) None) in
  raise_if dup_phone (mkHTTPException 400 "Phone already exists") ;;;
  let user := user_of_create new_id now payload in
  modify (set_users <[UserRead.id user := user]>) ;;;
  modify (set_user_secrets <[UserRead.id user := mkSecret (UserCreate.password payload)]>) ;;;
  hret user.

(** One optional filter of a listing: absent filters keep everything. *)
Definition keep_if {A F} (flt : option F) (p : F → A → bool) (l : list A) : list A :=
  match flt with
  | None => l
  | Some f => List.filter (p f) l
  end.

Definition list_users (name email phone membership_tier : option string)
  : Handler (list UserRead.t) :=
  let* results := reads (λ st, values (users st)) in
  let results := keep_if name (λ n u, String.eqb (UserRead.name u) n) results in
  let results := keep_if email (λ e u, String.eqb (lower (UserRead.email u)) (lower e)) results in
  let results := keep_if phone (λ p u, String.eqb (UserRead.phone u) p) results in
  let results := keep_if membership_tier
                   (λ t u, String.eqb (tier_name (UserRead.membership_tier u)) t) results in
  hret results.

Definition get_user (user_id : UUID) : Handler UserRead.t :=
  let* found := reads (λ st, users st !! user_id) in
  match found with
  | None => raise (mkHTTPException 404 "User not found")
  | Some u => hret u
  end.

(** [current.update(changes)], then the record rebuilt from [current]. *)
Definition merge_user (current : UserRead.t) (changes : UserUpdate.t) : UserRead.t :=
  UserRead.mk
    (UserRead.id current)
    (default (UserRead.name current) (UserUpdate.name changes))
    (default (UserRead.email current) (UserUpdate.email changes))
    (default (UserRead.phone current) (UserUpdate.phone changes))
    (default (UserRead.membership_tier current) (UserUpdate.membership_tier changes))
    (UserRead.created_at current).

Definition update_user (user_id : UUID) (patch : UserUpdate.t) : Handler UserRead.t :=
  let* found := reads (λ st, users st !! user_id) in
  match found with
  | None => raise (mkHTTPException 404 "User not found")
  | Some current =>
      let new_email := UserUpdate.email patch in
      let* dup_email := reads (λ st, truthy new_email
                                     && _email_exists (default "" new_email) (Some user_id) st) in
      raise_if dup_email (mkHTTPException 400 "Email already exists") ;;;
      let new_phone := UserUpdate.phone patch in
      let* dup_phone := reads (λ st, truthy new_phone
                                     && _phone_exists (default "" new_phone) (Some user_id) st) in
      raise_if dup_phone (mkHTTPException 400 "Phone already exists") ;;;
      let updated := merge_user current patch in
      modify (set_users <[user_id := updated]>) ;;;
      match UserUpdate.new_password patch with
      | Some pw => modify (set_user_secrets <[user_id := mkSecret pw]>)
      | None => hret tt
      end ;;;
      hret updated
  end.

Definition delete_user (user_id : UUID) : Handler unit :=
  let* known := reads (λ st, bool_decide (is_Some (users st !! user_id))) in
  raise_if (negb known) (mkHTTPException 404 "User not found") ;;;
  modify (set_users (delete user_id)) ;;;
  modify (set_user_secrets (delete user_id)) ;;;
  hret tt.

(** ** Profile CRUD *)

(** The profile record built from the payload's dump; the id comes from
    the record's default factory and is passed in as [new_id]. *)
Definition profile_of_create (new_id : UUID) (payload : ProfileCreate.t) : ProfileRead.t :=
  ProfileRead.mk new_id (ProfileCreate.user_id payload) (ProfileCreate.username payload)
    (ProfileCreate.descriptive payload).

Definition create_profile (new_id : UUID) (payload : ProfileCreate.t) : Handler ProfileRead.t :=
  _assert_user_exists (ProfileCreate.user_id payload) ;;;
  _assert_user_has_no_profile (ProfileCreate.user_id payload) ;;;
  let* dup := reads (_username_exists (ProfileCreate.username payload) None) in
  raise_if dup (mkHTTPException 400 "Username already exists") ;;;
  let profile := profile_of_create new_id payload in
  modify (set_profiles <[ProfileRead.id profile := profile]>) ;;;
  modify (set_profiles_by_user <[ProfileRead.user_id profile := ProfileRead.id profile]>) ;;;
  hret profile.

Definition list_profiles (user_id : option UUID) (username : option string)
  : Handler (list ProfileRead.t) :=
  let* results := reads (λ st, values (profiles st)) in
  let results := keep_if user_id (λ i p, N.eqb (ProfileRead.user_id p) i) results in
  let results := keep_if username
                   (λ n p, String.eqb (lower (ProfileRead.username p)) (lower n)) results in
  hret results.

Definition get_profile (profile_id : UUID) : Handler ProfileRead.t :=
  let* found := reads (λ st, profiles st !! profile_id) in
  match found with
  | None => raise (mkHTTPException 404 "Profile not found")
  | Some p => hret p
  end.

(** [current.update(changes)], then the record rebuilt from [current]:
    every key of [changes] overrides the stored one, [user_id] included. *)
Definition merge_profile (current : ProfileRead.t) (changes : ProfileUpdate.t) : ProfileRead.t :=
  ProfileRead.mk
    (ProfileRead.id current)
    (default (ProfileRead.user_id current) (ProfileUpdate.user_id changes))
    (default (ProfileRead.username current) (ProfileUpdate.username changes))
    (ProfileUpdate.descriptive changes ∪ ProfileRead.descriptive current).

Definition update_profile (profile_id : UUID) (patch : ProfileUpdate.t) : Handler ProfileRead.t :=
  let* found := reads (λ st, profiles st !! profile_id) in
  match found with
  | None => raise (mkHTTPException 404 "Profile not found")
  | Some current =>
      let new_username := ProfileUpdate.username patch in
      let* dup := reads (λ st, truthy new_username
                               && _username_exists (default "" new_username) (Some profile_id) st) in
      raise_if dup (mkHTTPException 400 "Username already exists") ;;;
      let updated := merge_profile current patch in
      modify (set_profiles <[profile_id := updated]>) ;;;
      hret updated
  end.

Definition delete_profile (profile_id : UUID) : Handler unit :=
  let* found := reads (λ st, profiles st !! profile_id) in
  match found with
  | None => raise (mkHTTPException 404 "Profile not found")
  | Some prof =>
      modify (set_profiles (delete profile_id)) ;;;
      modify (set_profiles_by_user (delete (ProfileRead.user_id prof))) ;;;
      hret tt
  end.

(** ** The request boundary *)

Inductive Request :=
| CreateUser (new_id : UUID) (now : datetime) (payload : UserCreate.t)
| ListUsers (name email phone membership_tier : option string)
| GetUser (user_id : UUID)
| UpdateUser (user_id : UUID) (patch : UserUpdate.t)
| DeleteUser (user_id : UUID)
| CreateProfile (new_id : UUID) (payload : ProfileCreate.t)
| ListProfiles (user_id : option UUID) (username : option string)
| GetProfile (profile_id : UUID)
| UpdateProfile (profile_id : UUID) (patch : ProfileUpdate.t)
| DeleteProfile (profile_id : UUID).

Inductive Response :=
| UserBody (u : UserRead.t)
| UserArray (l : list UserRead.t)
| ProfileBody (p : ProfileRead.t)
| ProfileArray (l : list ProfileRead.t)
| NoContent.

Definition hmap {A B} (f : A → B) (m : Handler A) : Handler B :=
  let* a := m in hret (f a).

Definition handle (req : Request) : Handler Response :=
  match req with
  | CreateUser new_id now payload => hmap UserBody (create_user new_id now payload)
  | ListUsers n e p t => hmap UserArray (list_users n e p t)
  | GetUser i => hmap UserBody (get_user i)
  | UpdateUser i patch => hmap UserBody (update_user i patch)
  | DeleteUser i => hmap (λ _, NoContent) (delete_user i)
  | CreateProfile new_id payload => hmap ProfileBody (create_profile new_id payload)
  | ListProfiles u n => hmap ProfileArray (list_profiles u n)
  | GetProfile i => hmap ProfileBody (get_profile i)
  | UpdateProfile i patch => hmap ProfileBody (update_profile i patch)
  | DeleteProfile i => hmap (λ _, NoContent) (delete_profile i)
  end.

(** The stores after serving a request, whether it succeeded or not. *)
Definition serve (st : Stores) (req : Request) : Stores := (handle req st).1.

(** The stores after serving a sequence of requests in order. *)
Definition serve_all (st : Stores) (reqs : list Request) : Stores :=
  foldl serve st reqs.

(** The stores are empty at process start; a state is reachable when some
    sequence of requests leads to it. *)
Definition reachable (st : Stores) : Prop :=
  ∃ reqs, st = serve_all empty_stores reqs.

(** A request succeeded when its handler returned instead of raising. *)
Definition succeeded {A} (r : Stores * (HTTPException + A)) : bool :=
  match r.2 with inr _ => true | inl _ => false end.

Definition failed_with {A} (code : nat) (r : Stores * (HTTPException + A)) : Prop :=
  ∃ e, r.2 = inl e ∧ status_code e = code.

(** ** State predicates *)

(** No two live users share an email (compared case-insensitively) or a
    phone number. *)
Definition users_unique (st : Stores) : Prop :=
  ∀ i j u v, users st !! i = Some u → users st !! j = Some v → i ≠ j →
    lower (UserRead.email u) ≠ lower (UserRead.email v)
    ∧ UserRead.phone u ≠ UserRead.phone v.

(** No two live profiles share a username (compared case-insensitively),
    and no two live profiles have the same owning user id. *)
Definition profiles_unique (st : Stores) : Prop :=
  ∀ i j p q, profiles st !! i = Some p → profiles st !! j = Some q → i ≠ j →
    lower (ProfileRead.username p) ≠ lower (ProfileRead.username q)
    ∧ ProfileRead.user_id p ≠ ProfileRead.user_id q.

(** Every record is stored under its own id. *)
Definition user_keys_consistent (st : Stores) : Prop :=
  ∀ k u, users st !! k = Some u → UserRead.id u = k.

Definition profile_keys_consistent (st : Stores) : Prop :=
  ∀ k p, profiles st !! k = Some p → ProfileRead.id p = k.

(** The owner of every live profile has an entry in the secondary index. *)
Definition index_covers (st : Stores) : Prop :=
  ∀ k p, profiles st !! k = Some p →
    is_Some (profiles_by_user st !! ProfileRead.user_id p).

(** Requests whose patch carries neither an empty string for a field under
    a uniqueness check nor a [user_id]. *)
Definition benign (req : Request) : bool :=
  match req with
  | UpdateUser _ patch =>
      negb (bool_decide (UserUpdate.email patch = Some ""))
      && negb (bool_decide (UserUpdate.phone patch = Some ""))
  | UpdateProfile _ patch =>
      negb (bool_decide (ProfileUpdate.username patch = Some ""))
      && bool_decide (ProfileUpdate.user_id patch = None)
  | _ => true
  end.

(** A request that creates a user under the given id. *)
Definition creates_user (uid : UUID) (req : Request) : bool :=
  match req with
  | CreateUser new_id _ _ => N.eqb new_id uid
  | _ => false
  end.

(** The stores are well-formed: records sit under their own ids, the
    uniqueness constraints hold and the index covers every live profile. *)
Definition store_inv (st : Stores) : Prop :=
  user_keys_consistent st ∧ users_unique st
  ∧ profile_keys_consistent st ∧ profiles_unique st ∧ index_covers st.

(** ** Further helpers and predicates *)

(** The first live user with the given email, compared
    case-insensitively, if there is one. *)
Definition _find_user_by_email (email : string) (st : Stores) : option UserRead.t :=
  let e := lower email in
  List.find (λ u, String.eqb (lower (UserRead.email u)) e) (values (users st)).

(** The secret store has an entry for exactly the live users. *)
Definition secrets_track_users (st : Stores) : Prop :=
  dom (user_secrets st) = dom (users st).

(** Requests served by the user handlers, and by the profile handlers. *)
Definition user_request (req : Request) : bool :=
  match req with
  | CreateUser _ _ _ | ListUsers _ _ _ _ | GetUser _ | UpdateUser _ _ | DeleteUser _ => true
  | _ => false
  end.

Definition profile_request (req : Request) : bool := negb (user_request req).

(** The status codes a request of each kind can be answered with when its
    handler raises. *)
Definition raisable (req : Request) : list nat :=
  match req with
  | CreateUser _ _ _ | CreateProfile _ _ => [400]
  | GetUser _ | DeleteUser _ | GetProfile _ | DeleteProfile _ => [404]
  | UpdateUser _ _ | UpdateProfile _ _ => [404; 400]
  | ListUsers _ _ _ _ | ListProfiles _ _ => []
  end.

(** Patches whose body carries nothing. *)
Definition empty_user_patch : UserUpdate.t := UserUpdate.mk None None None None None.
Definition empty_profile_patch : ProfileUpdate.t := ProfileUpdate.mk None None ∅.

(** The id a request addresses: the one in its path, or the one generated
    for the record it creates. *)
Definition addressed (req : Request) : option UUID :=
  match req with
  | CreateUser i _ _ | GetUser i | UpdateUser i _ | DeleteUser i
  | CreateProfile i _ | GetProfile i | UpdateProfile i _ | DeleteProfile i => Some i
  | ListUsers _ _ _ _ | ListProfiles _ _ => None
  end.


End Service.

(** ** Sample requests and stores, over ASCII strings *)

Section Samples.
#[local] Existing Instance ascii_lower.

Definition user_A : UserCreate.t := UserCreate.mk "A" "a@x.com" "1" FREE "pw-a".
Definition user_B : UserCreate.t := UserCreate.mk "B" "b@x.com" "2" PRO "pw-b".
Definition user_B_same_email : UserCreate.t := UserCreate.mk "B" "A@X.com" "2" PRO "pw-b".


Definition profile_alice : ProfileCreate.t :=
  ProfileCreate.mk 1 "alice" {[ "bio" := "hello" ]}.
Definition profile_bob : ProfileCreate.t :=
  ProfileCreate.mk 2 "bob" ∅.
Definition profile_ALICE_for_B : ProfileCreate.t :=
  ProfileCreate.mk 2 "ALICE" ∅.
Definition profile_carol_for_A : ProfileCreate.t :=
  ProfileCreate.mk 1 "carol" ∅.

(** User A (id 1) and user B (id 2). *)
Definition two_users : Stores :=
  serve_all empty_stores [CreateUser 1 0 user_A; CreateUser 2 0 user_B].

(** User A (id 1) owning the profile "alice" (id 10). *)
Definition user_with_profile : Stores :=
  serve_all empty_stores [CreateUser 1 0 user_A; CreateProfile 10 profile_alice].

(** Users A and B, owning the profiles "alice" (id 10) and "bob" (id 20). *)
Definition two_profiles : Stores :=
  serve_all two_users [CreateProfile 10 profile_alice; CreateProfile 20 profile_bob].

(** A patch that carries only a name. *)
Definition patch_name_only : UserUpdate.t :=
  UserUpdate.mk (Some "Ann") None None None None.

(** A patch that carries only an empty phone number. *)
Definition patch_empty_phone : UserUpdate.t :=
  UserUpdate.mk None None (Some "") None None.

(** A profile patch that carries only a [user_id]. *)
Definition patch_owner (u : UUID) : ProfileUpdate.t :=
  ProfileUpdate.mk (Some u) None ∅.

(** A profile patch that carries only an empty username. *)
Definition patch_empty_username : ProfileUpdate.t :=
  ProfileUpdate.mk None (Some "") ∅.

(** A profile patch that carries only a descriptive field. *)
Definition patch_bio_only : ProfileUpdate.t :=
  ProfileUpdate.mk None None {[ "bio" := "changed" ]}.

Definition patch_email_case : UserUpdate.t :=
  UserUpdate.mk None (Some "A@X.COM") None None None.
Definition patch_password : UserUpdate.t :=
  UserUpdate.mk None None None None (Some "new-pw").
Definition patch_rename : ProfileUpdate.t :=
  ProfileUpdate.mk None (Some "carol") ∅.

End Samples.

(** * Properties *)

Section Properties.
Context {L : StrLower}.

(** ** What the lookups of the helper functions mean *)

Lemma elem_of_values {V} (m : gmap UUID V) (v : V) :
  v ∈ values m ↔ ∃ k, m !! k = Some v.
Proof.
  unfold values. rewrite list_elem_of_fmap. split.
  - intros [[k w] [-> Hin]]. exists k. by apply elem_of_map_to_list.
  - intros [k Hk]. exists (k, v). split; [done|]. by apply elem_of_map_to_list.
Qed.

Lemma not_excluded_true excl x :
  not_excluded excl x = true ↔ excl ≠ Some x.
Proof.
  destruct excl as [i|]; simpl; [|done].
  rewrite negb_true_iff, N.eqb_neq. naive_solver.
Qed.

Lemma email_exists_true email excl st :
  _email_exists email excl st = true ↔
  ∃ k u, users st !! k = Some u
         ∧ lower (UserRead.email u) = lower email
         ∧ excl ≠ Some (UserRead.id u).
Proof.
  unfold _email_exists. rewrite existsb_exists. split.
  - intros [u [Hin Hu]]. apply list_elem_of_In, elem_of_values in Hin as [k Hk].
    apply andb_true_iff in Hu as [He Hx].
    apply String.eqb_eq in He. apply not_excluded_true in Hx. eauto.
  - intros (k & u & Hk & He & Hx). exists u. split.
    + apply list_elem_of_In, elem_of_values. eauto.
    + apply andb_true_iff. split; [by apply String.eqb_eq | by apply not_excluded_true].
Qed.

Lemma phone_exists_true phone excl st :
  _phone_exists phone excl st = true ↔
  ∃ k u, users st !! k = Some u
         ∧ UserRead.phone u = phone
         ∧ excl ≠ Some (UserRead.id u).
Proof.
  unfold _phone_exists. rewrite existsb_exists. split.
  - intros [u [Hin Hu]]. apply list_elem_of_In, elem_of_values in Hin as [k Hk].
    apply andb_true_iff in Hu as [He Hx].
    apply String.eqb_eq in He. apply not_excluded_true in Hx. eauto.
  - intros (k & u & Hk & He & Hx). exists u. split.
    + apply list_elem_of_In, elem_of_values. eauto.
    + apply andb_true_iff. split; [by apply String.eqb_eq | by apply not_excluded_true].
Qed.

Lemma username_exists_true username excl st :
  _username_exists username excl st = true ↔
  ∃ k p, profiles st !! k = Some p
         ∧ lower (ProfileRead.username p) = lower username
         ∧ excl ≠ Some k.
Proof.
  unfold _username_exists. rewrite existsb_exists. split.
  - intros [[k p] [Hin Hp]]. apply list_elem_of_In, elem_of_map_to_list in Hin.
    apply andb_true_iff in Hp as [He Hx].
    apply String.eqb_eq in He. apply not_excluded_true in Hx. eauto.
  - intros (k & p & Hk & He & Hx). exists (k, p). split.
    + by apply list_elem_of_In, elem_of_map_to_list.
    + apply andb_true_iff. split; [by apply String.eqb_eq | by apply not_excluded_true].
Qed.

Lemma truthy_true o :
  truthy o = true ↔ ∃ s, o = Some s ∧ s ≠ "".
Proof.
  destruct o as [s|]; simpl.
  - rewrite negb_true_iff, String.eqb_neq. split.
    + intros Hs. by exists s.
    + by intros (s' & [= <-] & Hs).
  - split; [done | by intros (s & ? & _)].
Qed.

(** ** The handlers, run on given stores *)

Lemma create_user_run new_id now payload st :
  create_user new_id now payload st =
  if _email_exists (UserCreate.email payload) None st
  then (st, inl (mkHTTPException 400 "Email already exists"))
  else if _phone_exists (UserCreate.phone payload) None st
  then (st, inl (mkHTTPException 400 "Phone already exists"))
  else (mkStores (<[new_id := user_of_create new_id now payload]> (users st))
                 (<[new_id := mkSecret (UserCreate.password payload)]> (user_secrets st))
                 (profiles st) (profiles_by_user st),
        inr (user_of_create new_id now payload)).
Proof.
  unfold create_user, hbind, reads, raise_if; simpl.
  destruct (_email_exists _ _ st); [done|]. simpl.
  destruct (_phone_exists _ _ st); done.
Qed.

Lemma update_user_run user_id patch st :
  update_user user_id patch st =
  match users st !! user_id with
  | None => (st, inl (mkHTTPException 404 "User not found"))
  | Some current =>
      if truthy (UserUpdate.email patch)
         && _email_exists (default "" (UserUpdate.email patch)) (Some user_id) st
      then (st, inl (mkHTTPException 400 "Email already exists"))
      else if truthy (UserUpdate.phone patch)
              && _phone_exists (default "" (UserUpdate.phone patch)) (Some user_id) st
      then (st, inl (mkHTTPException 400 "Phone already exists"))
      else (mkStores (<[user_id := merge_user current patch]> (users st))
                     (match UserUpdate.new_password patch with
                      | Some pw => <[user_id := mkSecret pw]> (user_secrets st)
                      | None => user_secrets st
                      end)
                     (profiles st) (profiles_by_user st),
            inr (merge_user current patch))
  end.
Proof.
  unfold update_user, hbind, reads, raise_if; simpl.
  destruct (users st !! user_id) as [current|]; [|done]. simpl.
  destruct (truthy (UserUpdate.email patch) && _); [done|]. simpl.
  destruct (truthy (UserUpdate.phone patch) && _); [done|]. simpl.
  destruct (UserUpdate.new_password patch); done.
Qed.

Lemma delete_user_run user_id st :
  delete_user user_id st =
  match users st !! user_id with
  | None => (st, inl (mkHTTPException 404 "User not found"))
  | Some _ => (mkStores (delete user_id (users st)) (delete user_id (user_secrets st))
                        (profiles st) (profiles_by_user st), inr tt)
  end.
Proof.
  unfold delete_user, hbind, reads, raise_if; simpl.
  by destruct (users st !! user_id) as [u|].
Qed.

Lemma get_user_run user_id st :
  get_user user_id st =
  match users st !! user_id with
  | None => (st, inl (mkHTTPException 404 "User not found"))
  | Some u => (st, inr u)
  end.
Proof.
  unfold get_user, hbind, reads; simpl. by destruct (users st !! user_id).
Qed.

Lemma create_profile_run new_id payload st :
  create_profile new_id payload st =
  match users st !! ProfileCreate.user_id payload with
  | None => (st, inl (mkHTTPException 400 "User does not exist"))
  | Some _ =>
      match profiles_by_user st !! ProfileCreate.user_id payload with
      | Some _ => (st, inl (mkHTTPException 400 "User already has a profile"))
      | None =>
          if _username_exists (ProfileCreate.username payload) None st
          then (st, inl (mkHTTPException 400 "Username already exists"))
          else (mkStores (users st) (user_secrets st)
                         (<[new_id := profile_of_create new_id payload]> (profiles st))
                         (<[ProfileCreate.user_id payload := new_id]> (profiles_by_user st)),
                inr (profile_of_create new_id payload))
      end
  end.
Proof.
  unfold create_profile, _assert_user_exists, _assert_user_has_no_profile,
    hbind, reads, raise_if; simpl.
  destruct (users st !! _) as [u|]; simpl; [|done].
  destruct (profiles_by_user st !! _) as [q|]; simpl; [done|].
  destruct (_username_exists _ _ st); done.
Qed.

Lemma update_profile_run profile_id patch st :
  update_profile profile_id patch st =
  match profiles st !! profile_id with
  | None => (st, inl (mkHTTPException 404 "Profile not found"))
  | Some current =>
      if truthy (ProfileUpdate.username patch)
         && _username_exists (default "" (ProfileUpdate.username patch)) (Some profile_id) st
      then (st, inl (mkHTTPException 400 "Username already exists"))
      else (mkStores (users st) (user_secrets st)
                     (<[profile_id := merge_profile current patch]> (profiles st))
                     (profiles_by_user st),
            inr (merge_profile current patch))
  end.
Proof.
  unfold update_profile, hbind, reads, raise_if; simpl.
  destruct (profiles st !! profile_id) as [current|]; [|done]. simpl.
  destruct (truthy (ProfileUpdate.username patch) && _); done.
Qed.

Lemma delete_profile_run profile_id st :
  delete_profile profile_id st =
  match profiles st !! profile_id with
  | None => (st, inl (mkHTTPException 404 "Profile not found"))
  | Some prof => (mkStores (users st) (user_secrets st)
                           (delete profile_id (profiles st))
                           (delete (ProfileRead.user_id prof) (profiles_by_user st)), inr tt)
  end.
Proof.
  unfold delete_profile, hbind, reads; simpl. by destruct (profiles st !! profile_id).
Qed.

(** ** Serving a request *)

Lemma hmap_run {A B} (f : A → B) (m : Handler A) st :
  hmap f m st = ((m st).1, match (m st).2 with inl e => inl e | inr a => inr (f a) end).
Proof. unfold hmap, hbind, hret. by destruct (m st) as [st' [e|a]]. Qed.

Lemma serve_all_app st reqs1 reqs2 :
  serve_all st (reqs1 ++ reqs2) = serve_all (serve_all st reqs1) reqs2.
Proof. unfold serve_all. by rewrite foldl_app. Qed.

Lemma serve_all_cons st req reqs :
  serve_all st (req :: reqs) = serve_all (serve st req) reqs.
Proof. done. Qed.

Lemma reachable_empty : reachable empty_stores.
Proof. by exists []. Qed.

Lemma reachable_serve st req : reachable st → reachable (serve st req).
Proof.
  intros [reqs ->]. exists (reqs ++ [req]). by rewrite serve_all_app.
Qed.

Lemma reachable_serve_all st reqs : reachable st → reachable (serve_all st reqs).
Proof.
  intros [reqs0 ->]. exists (reqs0 ++ reqs). by rewrite serve_all_app.
Qed.

(** Listings and fetches leave the stores alone. *)
Lemma list_users_run n e p t st : (list_users n e p t st).1 = st.
Proof. done. Qed.

Lemma list_profiles_run u n st : (list_profiles u n st).1 = st.
Proof. done. Qed.

Lemma get_profile_run profile_id st :
  get_profile profile_id st =
  match profiles st !! profile_id with
  | None => (st, inl (mkHTTPException 404 "Profile not found"))
  | Some p => (st, inr p)
  end.
Proof.
  unfold get_profile, hbind, reads; simpl. by destruct (profiles st !! profile_id).
Qed.

(** The stores after each kind of request. *)
Lemma serve_cases st req :
  serve st req =
  match req with
  | CreateUser new_id now payload => (create_user new_id now payload st).1
  | UpdateUser i patch => (update_user i patch st).1
  | DeleteUser i => (delete_user i st).1
  | CreateProfile new_id payload => (create_profile new_id payload st).1
  | UpdateProfile i patch => (update_profile i patch st).1
  | DeleteProfile i => (delete_profile i st).1
  | ListUsers _ _ _ _ | GetUser _ | ListProfiles _ _ | GetProfile _ => st
  end.
Proof.
  unfold serve. destruct req; cbn [handle]; rewrite hmap_run; cbn [fst]; try done.
  - rewrite get_user_run. by destruct (users st !! _).
  - rewrite get_profile_run. by destruct (profiles st !! _).
Qed.

(** ** Negative results of the helper functions *)

Lemma email_exists_false email excl st :
  _email_exists email excl st = false →
  ∀ k u, users st !! k = Some u → excl ≠ Some (UserRead.id u) →
         lower (UserRead.email u) ≠ lower email.
Proof.
  intros Hf k u Hk Hx Heq.
  assert (_email_exists email excl st = true) as Ht
    by (apply email_exists_true; eauto).
  congruence.
Qed.

Lemma phone_exists_false phone excl st :
  _phone_exists phone excl st = false →
  ∀ k u, users st !! k = Some u → excl ≠ Some (UserRead.id u) →
         UserRead.phone u ≠ phone.
Proof.
  intros Hf k u Hk Hx Heq.
  assert (_phone_exists phone excl st = true) as Ht
    by (apply phone_exists_true; eauto).
  congruence.
Qed.

Lemma username_exists_false username excl st :
  _username_exists username excl st = false →
  ∀ k p, profiles st !! k = Some p → excl ≠ Some k →
         lower (ProfileRead.username p) ≠ lower username.
Proof.
  intros Hf k p Hk Hx Heq.
  assert (_username_exists username excl st = true) as Ht
    by (apply username_exists_true; eauto).
  congruence.
Qed.

Lemma truthy_present s : s ≠ "" → truthy (Some s) = true.
Proof. intros Hs. apply truthy_true. eauto. Qed.

(** ** The user handlers keep the user store well-formed *)

Lemma create_user_keeps_users new_id now payload st :
  user_keys_consistent st → users_unique st →
  user_keys_consistent (create_user new_id now payload st).1
  ∧ users_unique (create_user new_id now payload st).1.
Proof.
  intros Hkeys Huniq. rewrite create_user_run.
  destruct (_email_exists _ _ st) eqn:He; [done|].
  destruct (_phone_exists _ _ st) eqn:Hp; [done|]. simpl.
  pose proof (email_exists_false _ _ _ He) as He'.
  pose proof (phone_exists_false _ _ _ Hp) as Hp'.
  split.
  - intros k u. simpl. rewrite lookup_insert. case_decide.
    + by intros [= <-].
    + apply Hkeys.
  - intros i j u v. simpl. rewrite !lookup_insert.
    repeat case_decide; subst; intros Hi Hj Hne.
    + done.
    + injection Hi as <-. simpl. split.
      * intros Heq. by eapply He'.
      * intros Heq. by eapply Hp'.
    + injection Hj as <-. simpl. split.
      * by eapply He'.
      * by eapply Hp'.
    + by eapply Huniq.
Qed.

Lemma update_user_keeps_users user_id patch st :
  UserUpdate.email patch ≠ Some "" → UserUpdate.phone patch ≠ Some "" →
  user_keys_consistent st → users_unique st →
  user_keys_consistent (update_user user_id patch st).1
  ∧ users_unique (update_user user_id patch st).1.
Proof.
  intros Hne_e Hne_p Hkeys Huniq. rewrite update_user_run.
  destruct (users st !! user_id) as [cur|] eqn:Hcur; [|done].
  destruct (truthy (UserUpdate.email patch) && _) eqn:He; [done|].
  destruct (truthy (UserUpdate.phone patch) && _) eqn:Hp; [done|]. simpl.
  assert (∀ j v, users st !! j = Some v → j ≠ user_id →
            lower (UserRead.email (merge_user cur patch)) ≠ lower (UserRead.email v)
            ∧ UserRead.phone (merge_user cur patch) ≠ UserRead.phone v) as Hfresh.
  { intros j v Hj Hne. pose proof (Hkeys _ _ Hj) as Hid. split; simpl.
    - destruct (UserUpdate.email patch) as [e|]; simpl.
      + rewrite truthy_present in He by congruence. simpl in He.
        intros Heq. eapply (email_exists_false _ _ _ He j v); [done|congruence|done].
      + by eapply Huniq.
    - destruct (UserUpdate.phone patch) as [p|]; simpl.
      + rewrite truthy_present in Hp by congruence. simpl in Hp.
        intros Heq. eapply (phone_exists_false _ _ _ Hp j v); [done|congruence|done].
      + by eapply Huniq. }
  split.
  - intros k u. simpl. rewrite lookup_insert. case_decide.
    + intros [= <-]. simpl. by rewrite (Hkeys _ _ Hcur).
    + apply Hkeys.
  - intros i j u v. simpl. rewrite !lookup_insert.
    repeat case_decide; subst; intros Hi Hj Hne.
    + done.
    + injection Hi as <-. by eapply Hfresh.
    + injection Hj as <-. destruct (Hfresh i u) as [H1 H2]; [done..|]. split; congruence.
    + by eapply Huniq.
Qed.

Lemma delete_user_keeps_users user_id st :
  user_keys_consistent st → users_unique st →
  user_keys_consistent (delete_user user_id st).1
  ∧ users_unique (delete_user user_id st).1.
Proof.
  intros Hkeys Huniq. rewrite delete_user_run.
  destruct (users st !! user_id) as [cur|] eqn:Hcur; [|done]. simpl. split.
  - intros k u. simpl. rewrite lookup_delete. case_decide; [done|]. apply Hkeys.
  - intros i j u v. simpl. rewrite !lookup_delete.
    repeat case_decide; try done. apply Huniq.
Qed.

(** ** The profile handlers keep the profile store well-formed *)

Lemma create_profile_keeps_profiles new_id payload st :
  profile_keys_consistent st → profiles_unique st → index_covers st →
  profile_keys_consistent (create_profile new_id payload st).1
  ∧ profiles_unique (create_profile new_id payload st).1
  ∧ index_covers (create_profile new_id payload st).1.
Proof.
  intros Hkeys Huniq Hcov. rewrite create_profile_run.
  destruct (users st !! _) as [owner|]; [|done].
  destruct (profiles_by_user st !! _) as [q|] eqn:Hidx; [done|].
  destruct (_username_exists _ _ st) eqn:Hname; [done|]. simpl.
  pose proof (username_exists_false _ _ _ Hname) as Hname'.
  assert (∀ j q, profiles st !! j = Some q →
            lower (ProfileCreate.username payload) ≠ lower (ProfileRead.username q)
            ∧ ProfileCreate.user_id payload ≠ ProfileRead.user_id q) as Hfresh.
  { intros j q Hj. split.
    - intros Heq. by eapply (Hname' j q).
    - intros Heq. destruct (Hcov _ _ Hj) as [x Hx]. congruence. }
  split; [|split].
  - intros k p. simpl. rewrite lookup_insert. case_decide.
    + by intros [= <-].
    + apply Hkeys.
  - intros i j p q. simpl. rewrite !lookup_insert.
    repeat case_decide; subst; intros Hi Hj Hne.
    + done.
    + injection Hi as <-. simpl. by eapply Hfresh.
    + injection Hj as <-. simpl. destruct (Hfresh i p) as [H1 H2]; [done|].
      split; congruence.
    + by eapply Huniq.
  - intros k p. simpl. rewrite lookup_insert. case_decide.
    + intros [= <-]. simpl. rewrite lookup_insert_eq. eauto.
    + intros Hk. rewrite lookup_insert. case_decide; [eauto|]. by eapply Hcov.
Qed.

Lemma update_profile_keeps_profiles profile_id patch st :
  ProfileUpdate.username patch ≠ Some "" → ProfileUpdate.user_id patch = None →
  profile_keys_consistent st → profiles_unique st → index_covers st →
  profile_keys_consistent (update_profile profile_id patch st).1
  ∧ profiles_unique (update_profile profile_id patch st).1
  ∧ index_covers (update_profile profile_id patch st).1.
Proof.
  intros Hne_n Hno_owner Hkeys Huniq Hcov. rewrite update_profile_run.
  destruct (profiles st !! profile_id) as [cur|] eqn:Hcur; [|done].
  destruct (truthy (ProfileUpdate.username patch) && _) eqn:Hname; [done|]. simpl.
  assert (ProfileRead.user_id (merge_profile cur patch) = ProfileRead.user_id cur) as Howner.
  { simpl. by rewrite Hno_owner. }
  assert (∀ j q, profiles st !! j = Some q → j ≠ profile_id →
            lower (ProfileRead.username (merge_profile cur patch))
              ≠ lower (ProfileRead.username q)
            ∧ ProfileRead.user_id (merge_profile cur patch) ≠ ProfileRead.user_id q) as Hfresh.
  { intros j q Hj Hne. split.
    - simpl. destruct (ProfileUpdate.username patch) as [n|]; simpl.
      + rewrite truthy_present in Hname by congruence. simpl in Hname.
        intros Heq. eapply (username_exists_false _ _ _ Hname j q); [done|congruence|done].
      + by eapply Huniq.
    - rewrite Howner. by eapply Huniq. }
  split; [|split].
  - intros k p. simpl. rewrite lookup_insert. case_decide.
    + intros [= <-]. simpl. subst. by apply Hkeys.
    + apply Hkeys.
  - intros i j p q. simpl. rewrite !lookup_insert.
    repeat case_decide; subst; intros Hi Hj Hne.
    + done.
    + injection Hi as <-. by eapply Hfresh.
    + injection Hj as <-. destruct (Hfresh i p) as [H1 H2]; [done..|]. split; congruence.
    + by eapply Huniq.
  - intros k p. simpl. rewrite lookup_insert. case_decide.
    + intros [= <-]. rewrite Howner. by eapply Hcov.
    + by apply Hcov.
Qed.

Lemma delete_profile_keeps_profiles profile_id st :
  profile_keys_consistent st → profiles_unique st → index_covers st →
  profile_keys_consistent (delete_profile profile_id st).1
  ∧ profiles_unique (delete_profile profile_id st).1
  ∧ index_covers (delete_profile profile_id st).1.
Proof.
  intros Hkeys Huniq Hcov. rewrite delete_profile_run.
  destruct (profiles st !! profile_id) as [cur|] eqn:Hcur; [|done]. simpl.
  split; [|split].
  - intros k p. simpl. rewrite lookup_delete. case_decide; [done|]. apply Hkeys.
  - intros i j p q. simpl. rewrite !lookup_delete.
    repeat case_decide; try done. apply Huniq.
  - intros k p. simpl. rewrite lookup_delete. case_decide; [done|]. intros Hk.
    rewrite lookup_delete_ne; [by eapply Hcov|].
    by eapply Huniq.
Qed.

(** ** Each side leaves the other side's dictionaries alone *)

Lemma create_user_frame new_id now payload st :
  profiles (create_user new_id now payload st).1 = profiles st
  ∧ profiles_by_user (create_user new_id now payload st).1 = profiles_by_user st.
Proof.
  rewrite create_user_run.
  destruct (_email_exists _ _ st); [done|]. by destruct (_phone_exists _ _ st).
Qed.

Lemma update_user_frame user_id patch st :
  profiles (update_user user_id patch st).1 = profiles st
  ∧ profiles_by_user (update_user user_id patch st).1 = profiles_by_user st.
Proof.
  rewrite update_user_run. destruct (users st !! user_id); [|done].
  destruct (truthy (UserUpdate.email patch) && _); [done|].
  by destruct (truthy (UserUpdate.phone patch) && _).
Qed.

Lemma delete_user_frame user_id st :
  profiles (delete_user user_id st).1 = profiles st
  ∧ profiles_by_user (delete_user user_id st).1 = profiles_by_user st.
Proof. rewrite delete_user_run. by destruct (users st !! user_id). Qed.

Lemma create_profile_frame new_id payload st :
  users (create_profile new_id payload st).1 = users st
  ∧ user_secrets (create_profile new_id payload st).1 = user_secrets st.
Proof.
  rewrite create_profile_run. destruct (users st !! _); [|done].
  destruct (profiles_by_user st !! _); [done|]. by destruct (_username_exists _ _ st).
Qed.

Lemma update_profile_frame profile_id patch st :
  users (update_profile profile_id patch st).1 = users st
  ∧ user_secrets (update_profile profile_id patch st).1 = user_secrets st.
Proof.
  rewrite update_profile_run. destruct (profiles st !! profile_id); [|done].
  by destruct (truthy (ProfileUpdate.username patch) && _).
Qed.

Lemma delete_profile_frame profile_id st :
  users (delete_profile profile_id st).1 = users st
  ∧ user_secrets (delete_profile profile_id st).1 = user_secrets st.
Proof. rewrite delete_profile_run. by destruct (profiles st !! profile_id). Qed.

Lemma user_side_ext st st' :
  users st' = users st →
  user_keys_consistent st → users_unique st →
  user_keys_consistent st' ∧ users_unique st'.
Proof.
  unfold user_keys_consistent, users_unique. intros ->. done.
Qed.

Lemma profile_side_ext st st' :
  profiles st' = profiles st → profiles_by_user st' = profiles_by_user st →
  profile_keys_consistent st → profiles_unique st → index_covers st →
  profile_keys_consistent st' ∧ profiles_unique st' ∧ index_covers st'.
Proof.
  unfold profile_keys_consistent, profiles_unique, index_covers. intros -> ->. done.
Qed.

(** ** Well-formedness along benign request sequences *)

Lemma store_inv_empty : store_inv empty_stores.
Proof.
  repeat split; repeat intros ?; simpl in *; by simplify_map_eq.
Qed.

Lemma serve_keeps_inv st req :
  benign req = true → store_inv st → store_inv (serve st req).
Proof.
  intros Hb (Hku & Huu & Hkp & Hup & Hcov). rewrite serve_cases.
  unfold store_inv.
  destruct req as [new_id now payload| | |i patch|i|new_id payload| | |i patch|i];
    try done; simpl in Hb.
  - destruct (create_user_keeps_users new_id now payload st) as [? ?]; [done..|].
    destruct (create_user_frame new_id now payload st) as [? ?].
    destruct (profile_side_ext st (create_user new_id now payload st).1)
      as (? & ? & ?); done.
  - apply andb_true_iff in Hb as [He Hp].
    apply negb_true_iff, bool_decide_eq_false in He.
    apply negb_true_iff, bool_decide_eq_false in Hp.
    destruct (update_user_keeps_users i patch st) as [? ?]; [done..|].
    destruct (update_user_frame i patch st) as [? ?].
    destruct (profile_side_ext st (update_user i patch st).1) as (? & ? & ?); done.
  - destruct (delete_user_keeps_users i st) as [? ?]; [done..|].
    destruct (delete_user_frame i st) as [? ?].
    destruct (profile_side_ext st (delete_user i st).1) as (? & ? & ?); done.
  - destruct (create_profile_keeps_profiles new_id payload st) as (? & ? & ?); [done..|].
    destruct (create_profile_frame new_id payload st) as [? ?].
    destruct (user_side_ext st (create_profile new_id payload st).1) as (? & ?); done.
  - apply andb_true_iff in Hb as [Hn Ho].
    apply negb_true_iff, bool_decide_eq_false in Hn.
    apply bool_decide_eq_true in Ho.
    destruct (update_profile_keeps_profiles i patch st) as (? & ? & ?); [done..|].
    destruct (update_profile_frame i patch st) as [? ?].
    destruct (user_side_ext st (update_profile i patch st).1) as (? & ?); done.
  - destruct (delete_profile_keeps_profiles i st) as (? & ? & ?); [done..|].
    destruct (delete_profile_frame i st) as [? ?].
    destruct (user_side_ext st (delete_profile i st).1) as (? & ?); done.
Qed.

Lemma serve_all_keeps_inv reqs : ∀ st,
  forallb benign reqs = true → store_inv st → store_inv (serve_all st reqs).
Proof.
  induction reqs as [|req reqs IH]; intros st Hb Hinv; [done|].
  simpl in Hb. apply andb_true_iff in Hb as [Hreq Hrest].
  rewrite serve_all_cons. apply IH; [done|]. by apply serve_keeps_inv.
Qed.

(** ** Uniqueness of emails and phone numbers *)

(** X8: along every sequence of requests whose patches carry no empty string
    for a checked field and no [user_id], the stores stay well-formed: in
    particular no two live users share an email or a phone number, and no
    two live profiles share a username or an owner. *)
Theorem benign_requests_keep_inv reqs :
  forallb benign reqs = true → store_inv (serve_all empty_stores reqs).
Proof. intros Hb. apply serve_all_keeps_inv; [done | apply store_inv_empty]. Qed.

(** ** Deleting a user *)

(** What [delete_user] does to the four dictionaries. *)
Lemma delete_user_stores user_id st :
  is_Some (users st !! user_id) →
  delete_user user_id st =
  (mkStores (delete user_id (users st)) (delete user_id (user_secrets st))
            (profiles st) (profiles_by_user st), inr tt).
Proof. intros [u Hu]. rewrite delete_user_run. by rewrite Hu. Qed.

(** C3, amended: for a live user that owns a profile, [delete_user]
    succeeds, removes the public record and the secret record, and leaves
    both the index entry of that user and the profile record in place. *)
Theorem delete_user_removes_user_only st user_id pid prof :
  is_Some (users st !! user_id) →
  profiles st !! pid = Some prof →
  ProfileRead.user_id prof = user_id →
  profiles_by_user st !! user_id = Some pid →
  let r := delete_user user_id st in
  r.2 = inr tt
  ∧ users r.1 !! user_id = None
  ∧ user_secrets r.1 !! user_id = None
  ∧ profiles_by_user r.1 !! user_id = Some pid
  ∧ profiles r.1 !! pid = Some prof
  ∧ profiles r.1 = profiles st
  ∧ profiles_by_user r.1 = profiles_by_user st.
Proof.
  intros Hlive Hprof Howner Hidx r. subst r.
  rewrite (delete_user_stores _ _ Hlive). simpl.
  rewrite !lookup_delete_eq. done.
Qed.

(** ** Partial updates *)

Lemma update_user_stored user_id patch st cur :
  users st !! user_id = Some cur →
  users (update_user user_id patch st).1 !! user_id = Some cur
  ∨ users (update_user user_id patch st).1 !! user_id = Some (merge_user cur patch).
Proof.
  intros Hcur. rewrite update_user_run, Hcur.
  destruct (truthy (UserUpdate.email patch) && _); [by left|].
  destruct (truthy (UserUpdate.phone patch) && _); [by left|].
  right. simpl. by rewrite lookup_insert_eq.
Qed.

Lemma update_user_secret_kept user_id patch st :
  UserUpdate.new_password patch = None →
  user_secrets (update_user user_id patch st).1 = user_secrets st.
Proof.
  intros Hpw. rewrite update_user_run. destruct (users st !! user_id); [|done].
  destruct (truthy (UserUpdate.email patch) && _); [done|].
  destruct (truthy (UserUpdate.phone patch) && _); [done|].
  simpl. by rewrite Hpw.
Qed.

Lemma update_profile_stored profile_id patch st cur :
  profiles st !! profile_id = Some cur →
  profiles (update_profile profile_id patch st).1 !! profile_id = Some cur
  ∨ profiles (update_profile profile_id patch st).1 !! profile_id
    = Some (merge_profile cur patch).
Proof.
  intros Hcur. rewrite update_profile_run, Hcur.
  destruct (truthy (ProfileUpdate.username patch) && _); [by left|].
  right. simpl. by rewrite lookup_insert_eq.
Qed.

(** C5: a partial update of an existing user or profile leaves every
    field that the request body does not carry as it was, whether the
    update is applied or rejected; the id and the creation timestamp, which
    no patch carries, are kept as well, and so is the stored password when
    the body has no new one. *)
Theorem partial_update_keeps_absent_fields st :
  (∀ user_id patch cur,
     users st !! user_id = Some cur →
     ∃ new, users (update_user user_id patch st).1 !! user_id = Some new
       ∧ UserRead.id new = UserRead.id cur
       ∧ UserRead.created_at new = UserRead.created_at cur
       ∧ (UserUpdate.name patch = None → UserRead.name new = UserRead.name cur)
       ∧ (UserUpdate.email patch = None → UserRead.email new = UserRead.email cur)
       ∧ (UserUpdate.phone patch = None → UserRead.phone new = UserRead.phone cur)
       ∧ (UserUpdate.membership_tier patch = None →
          UserRead.membership_tier new = UserRead.membership_tier cur)
       ∧ (UserUpdate.new_password patch = None →
          user_secrets (update_user user_id patch st).1 !! user_id
          = user_secrets st !! user_id))
  ∧ (∀ profile_id patch cur,
       profiles st !! profile_id = Some cur →
       ∃ new, profiles (update_profile profile_id patch st).1 !! profile_id = Some new
         ∧ ProfileRead.id new = ProfileRead.id cur
         ∧ (ProfileUpdate.user_id patch = None →
            ProfileRead.user_id new = ProfileRead.user_id cur)
         ∧ (ProfileUpdate.username patch = None →
            ProfileRead.username new = ProfileRead.username cur)
         ∧ (∀ field, ProfileUpdate.descriptive patch !! field = None →
            ProfileRead.descriptive new !! field = ProfileRead.descriptive cur !! field)).
Proof.
  split.
  - intros user_id patch cur Hcur.
    destruct (update_user_stored user_id patch st cur Hcur) as [Hsame|Hnew].
    + exists cur. repeat split; try done.
      intros Hpw. by rewrite update_user_secret_kept.
    + exists (merge_user cur patch). split; [done|]. simpl.
      repeat split; try (by intros ->).
      intros Hpw. by rewrite update_user_secret_kept.
  - intros profile_id patch cur Hcur.
    destruct (update_profile_stored profile_id patch st cur Hcur) as [Hsame|Hnew].
    + exists cur. repeat split; done.
    + exists (merge_profile cur patch). split; [done|]. simpl.
      repeat split; try (by intros ->).
      intros field Hfield. rewrite lookup_union, Hfield.
      by destruct (ProfileRead.descriptive cur !! field).
Qed.

(** ** Creating a user *)



(** ** Creating a profile *)

(** X26: [create_profile] raises a 400 and leaves the stores alone, so no
    profile is created, when the given user id has no live user, or the
    index [profiles_by_user] already has an entry for that user, or a live
    profile has the requested username (compared case-insensitively). *)
Theorem create_profile_rejects new_id payload st :
  users st !! ProfileCreate.user_id payload = None
  ∨ is_Some (profiles_by_user st !! ProfileCreate.user_id payload)
  ∨ (∃ k p, profiles st !! k = Some p
            ∧ lower (ProfileRead.username p) = lower (ProfileCreate.username payload)) →
  failed_with 400 (create_profile new_id payload st)
  ∧ (create_profile new_id payload st).1 = st.
Proof.
  intros Hbad. rewrite create_profile_run.
  destruct (users st !! _) as [owner|] eqn:Howner; [|split; [by eexists|done]].
  destruct (profiles_by_user st !! _) as [q|] eqn:Hidx; [split; [by eexists|done]|].
  destruct (_username_exists _ _ st) eqn:Hname; [split; [by eexists|done]|].
  exfalso. destruct Hbad as [Hbad|[[x Hx]|(k & p & Hk & Heq)]]; try done.
  by eapply (username_exists_false _ _ _ Hname k p).
Qed.

(** X27: where the index covers the live profiles, as it does along benign
    request sequences, a user id that is the owner of a live profile has an
    index entry, so a second profile for it is rejected with a 400 and the
    stores are left alone. *)
Lemma create_profile_rejects_owner new_id payload st k p :
  index_covers st →
  profiles st !! k = Some p →
  ProfileRead.user_id p = ProfileCreate.user_id payload →
  failed_with 400 (create_profile new_id payload st)
  ∧ (create_profile new_id payload st).1 = st.
Proof.
  intros Hcov Hk Hown. destruct (Hcov _ _ Hk) as [x Hx]. rewrite Hown in Hx.
  rewrite create_profile_run, Hx.
  destruct (users st !! _); (split; [by eexists|done]).
Qed.

(** ** Rejected requests *)

Lemma hmap_failed {A B} (f : A → B) (m : Handler A) st e :
  (hmap f m st).2 = inl e → (m st).2 = inl e.
Proof. rewrite hmap_run. destruct (m st) as [st' [x|a]]; simpl; congruence. Qed.

(** C8: a request whose handler raises leaves the four dictionaries as
    they were; this covers the create and update handlers of both stores
    (and the other handlers as well). *)
Theorem failed_request_leaves_stores req st e :
  (handle req st).2 = inl e → (handle req st).1 = st.
Proof.
  intros Hfail. change ((handle req st).1) with (serve st req).
  rewrite serve_cases.
  destruct req as [new_id now payload| | |i patch|i|new_id payload| | |i patch|i];
    try done; apply hmap_failed in Hfail; revert Hfail.
  - rewrite create_user_run.
    destruct (_email_exists _ _ st); [done|]. by destruct (_phone_exists _ _ st).
  - rewrite update_user_run. destruct (users st !! i); [|done].
    destruct (truthy (UserUpdate.email patch) && _); [done|].
    by destruct (truthy (UserUpdate.phone patch) && _).
  - rewrite delete_user_run. by destruct (users st !! i).
  - rewrite create_profile_run. destruct (users st !! _); [|done].
    destruct (profiles_by_user st !! _); [done|].
    by destruct (_username_exists _ _ st).
  - rewrite update_profile_run. destruct (profiles st !! i); [|done].
    by destruct (truthy (ProfileUpdate.username patch) && _).
  - rewrite delete_profile_run. by destruct (profiles st !! i).
Qed.

(** ** Deleted users stay deleted *)

Lemma serve_keeps_user_keys st req :
  user_keys_consistent st → user_keys_consistent (serve st req).
Proof.
  intros Hkeys. rewrite serve_cases.
  destruct req as [new_id now payload| | |i patch|i|new_id payload| | |i patch|i];
    try done.
  - rewrite create_user_run.
    destruct (_email_exists _ _ st); [done|]. destruct (_phone_exists _ _ st); [done|].
    intros k u. simpl. rewrite lookup_insert. case_decide; [by intros [= <-]|apply Hkeys].
  - rewrite update_user_run. destruct (users st !! i) as [cur|] eqn:Hcur; [|done].
    destruct (truthy (UserUpdate.email patch) && _); [done|].
    destruct (truthy (UserUpdate.phone patch) && _); [done|].
    intros k u. simpl. rewrite lookup_insert. case_decide; [|apply Hkeys].
    intros [= <-]. simpl. subst. by apply Hkeys.
  - rewrite delete_user_run. destruct (users st !! i); [|done].
    intros k u. simpl. rewrite lookup_delete. case_decide; [done|apply Hkeys].
  - intros k u. destruct (create_profile_frame new_id payload st) as [-> _]. apply Hkeys.
  - intros k u. destruct (update_profile_frame i patch st) as [-> _]. apply Hkeys.
  - intros k u. destruct (delete_profile_frame i st) as [-> _]. apply Hkeys.
Qed.

Lemma reachable_user_keys st : reachable st → user_keys_consistent st.
Proof.
  intros [reqs ->]. induction reqs as [|req reqs IH] using rev_ind.
  - intros k u. simpl. by rewrite lookup_empty.
  - rewrite serve_all_app. simpl. by apply serve_keeps_user_keys.
Qed.

(** Only a creation under that very id brings an absent user id back. *)
Lemma serve_keeps_user_absent st req user_id :
  creates_user user_id req = false →
  users st !! user_id = None → users (serve st req) !! user_id = None.
Proof.
  intros Hreq Hnone. rewrite serve_cases.
  destruct req as [new_id now payload| | |i patch|i|new_id payload| | |i patch|i];
    try done.
  - simpl in Hreq. apply N.eqb_neq in Hreq. rewrite create_user_run.
    destruct (_email_exists _ _ st); [done|]. destruct (_phone_exists _ _ st); [done|].
    simpl. by rewrite lookup_insert_ne.
  - rewrite update_user_run. destruct (users st !! i) as [cur|] eqn:Hcur; [|done].
    destruct (truthy (UserUpdate.email patch) && _); [done|].
    destruct (truthy (UserUpdate.phone patch) && _); [done|].
    simpl. rewrite lookup_insert_ne; [done|]. intros ->. congruence.
  - rewrite delete_user_run. destruct (users st !! i); [|done].
    simpl. rewrite lookup_delete. by case_decide.
  - by destruct (create_profile_frame new_id payload st) as [-> _].
  - by destruct (update_profile_frame i patch st) as [-> _].
  - by destruct (delete_profile_frame i st) as [-> _].
Qed.

Lemma serve_all_keeps_user_absent reqs user_id : ∀ st,
  existsb (creates_user user_id) reqs = false →
  users st !! user_id = None → users (serve_all st reqs) !! user_id = None.
Proof.
  induction reqs as [|req reqs IH]; intros st Hreqs Hnone; [done|].
  simpl in Hreqs. apply orb_false_iff in Hreqs as [Hreq Hrest].
  rewrite serve_all_cons. apply IH; [done|]. by apply serve_keeps_user_absent.
Qed.

Lemma elem_of_keep_if {A F} (flt : option F) (p : F → A → bool) (l : list A) x :
  x ∈ keep_if flt p l → x ∈ l.
Proof.
  destruct flt as [f|]; simpl; [|done].
  rewrite !list_elem_of_In, filter_In. by intros [? _].
Qed.

Lemma list_users_from_store n e p t st l u :
  (list_users n e p t st).2 = inr l → u ∈ l → ∃ k, users st !! k = Some u.
Proof.
  unfold list_users, hbind, reads, hret. simpl. intros [= <-] Hin.
  do 4 apply elem_of_keep_if in Hin. by apply elem_of_values.
Qed.

(** C9: after a successful delete of a user id, fetching that id raises
    a 404, and, as long as no creation produces that id again, it keeps
    doing so and no listing, whatever its filters, returns a record with
    that id. *)
Theorem deleted_user_stays_gone st user_id reqs :
  reachable st →
  succeeded (delete_user user_id st) = true →
  existsb (creates_user user_id) reqs = false →
  let st1 := (delete_user user_id st).1 in
  failed_with 404 (get_user user_id st1)
  ∧ failed_with 404 (get_user user_id (serve_all st1 reqs))
  ∧ ∀ n e p t l, (list_users n e p t (serve_all st1 reqs)).2 = inr l →
                 ∀ u, u ∈ l → UserRead.id u ≠ user_id.
Proof.
  intros Hreach Hdel Hreqs st1.
  assert (reachable st1) as Hreach1.
  { replace st1 with (serve st (DeleteUser user_id)) by (by rewrite serve_cases).
    by apply reachable_serve. }
  assert (users st1 !! user_id = None) as Hgone.
  { unfold st1. rewrite delete_user_run.
    destruct (users st !! user_id) eqn:Hu; simpl; [|done].
    by rewrite lookup_delete_eq. }
  pose proof (serve_all_keeps_user_absent reqs user_id st1 Hreqs Hgone) as Hstill.
  split; [|split].
  - rewrite get_user_run, Hgone. by eexists.
  - rewrite get_user_run, Hstill. by eexists.
  - intros n e p t l Hl u Hin Hid.
    destruct (list_users_from_store _ _ _ _ _ _ _ Hl Hin) as [k Hk].
    pose proof (reachable_user_keys _ (reachable_serve_all _ reqs Hreach1) k u Hk).
    congruence.
Qed.

(** ** Deleting a profile frees its owner *)

(** C10: when a live user owns a live profile, deleting that profile
    succeeds and removes the index entry of the user, and a following
    creation of a profile for that user, under a username that no live
    profile has, succeeds: it returns the new profile and stores it. *)
Theorem profile_recreate_after_delete st user_id profile_id prof new_id payload :
  is_Some (users st !! user_id) →
  profiles st !! profile_id = Some prof →
  ProfileRead.user_id prof = user_id →
  ProfileCreate.user_id payload = user_id →
  let st1 := (delete_profile profile_id st).1 in
  (∀ k q, profiles st1 !! k = Some q →
          lower (ProfileRead.username q) ≠ lower (ProfileCreate.username payload)) →
  succeeded (delete_profile profile_id st) = true
  ∧ profiles_by_user st1 !! user_id = None
  ∧ (create_profile new_id payload st1).2 = inr (profile_of_create new_id payload)
  ∧ profiles (create_profile new_id payload st1).1 !! new_id
    = Some (profile_of_create new_id payload)
  ∧ profiles_by_user (create_profile new_id payload st1).1 !! user_id = Some new_id.
Proof.
  intros [owner Howner] Hprof Hown Hpay st1 Hfree. subst st1.
  rewrite delete_profile_run, Hprof in *. simpl in *.
  split; [done|]. rewrite Hown.
  split; [by rewrite lookup_delete_eq|].
  rewrite create_profile_run. simpl. rewrite Hpay, Howner, lookup_delete_eq.
  destruct (_username_exists _ _ _) eqn:Hname.
  { exfalso. apply username_exists_true in Hname as (k & q & Hk & Heq & _).
    by eapply Hfree. }
  simpl. by rewrite !lookup_insert_eq.
Qed.

(** * Further properties of the handlers *)

(** ** Listings *)

Lemma elem_of_keep_if_iff {A F} (flt : option F) (p : F → A → bool) (l : list A) x :
  x ∈ keep_if flt p l ↔ x ∈ l ∧ ∀ f, flt = Some f → p f x = true.
Proof.
  destruct flt as [f|]; simpl.
  - rewrite !list_elem_of_In, filter_In. split.
    + intros [Hin Hp]. split; [done|]. by intros f' [= <-].
    + intros [Hin Hp]. split; [done|]. by apply Hp.
  - split; [|by intros [? _]]. intros Hin. split; [done|]. by intros f [=].
Qed.

Lemma list_users_result n e p t st :
  list_users n e p t st =
  (st, inr (keep_if t (λ t u, String.eqb (tier_name (UserRead.membership_tier u)) t)
           (keep_if p (λ p u, String.eqb (UserRead.phone u) p)
           (keep_if e (λ e u, String.eqb (lower (UserRead.email u)) (lower e))
           (keep_if n (λ n u, String.eqb (UserRead.name u) n) (values (users st))))))).
Proof. done. Qed.

Lemma list_profiles_result user_id username st :
  list_profiles user_id username st =
  (st, inr (keep_if username
              (λ n p, String.eqb (lower (ProfileRead.username p)) (lower n))
           (keep_if user_id (λ i p, N.eqb (ProfileRead.user_id p) i)
              (values (profiles st))))).
Proof. done. Qed.

Lemma keep_if_NoDup {A F} (flt : option F) (p : F → A → bool) (l : list A) :
  NoDup l → NoDup (keep_if flt p l).
Proof.
  destruct flt; simpl; [|done]. rewrite !NoDup_ListNoDup. apply List.NoDup_filter.
Qed.

(** Records that sit under their own ids are pairwise different. *)
Lemma values_NoDup {V} (key : V → UUID) (m : gmap UUID V) :
  (∀ k v, m !! k = Some v → key v = k) → NoDup (values m).
Proof.
  intros Hkeys. unfold values.
  apply NoDup_fmap_2_strong; [|apply NoDup_map_to_list].
  intros [k v] [k' v'] Hin%elem_of_map_to_list Hin'%elem_of_map_to_list Heq.
  simpl in Heq. subst v'. f_equal.
  by rewrite <- (Hkeys _ _ Hin), <- (Hkeys _ _ Hin').
Qed.

(** X1: [list_users] never raises and never touches the stores; it
    returns exactly the live users that pass every filter the request
    carries (name, phone and tier compared exactly, email
    case-insensitively), absent filters letting everything through; where
    the users are stored under their own ids, none is listed twice. *)
Theorem list_users_spec n e p t st :
  ∃ l, list_users n e p t st = (st, inr l)
    ∧ (∀ u, u ∈ l ↔
         (∃ k, users st !! k = Some u)
         ∧ (∀ x, n = Some x → UserRead.name u = x)
         ∧ (∀ x, e = Some x → lower (UserRead.email u) = lower x)
         ∧ (∀ x, p = Some x → UserRead.phone u = x)
         ∧ (∀ x, t = Some x → tier_name (UserRead.membership_tier u) = x))
    ∧ (user_keys_consistent st → NoDup l).
Proof.
  eexists. split; [apply list_users_result|]. split.
  - intros u. rewrite !elem_of_keep_if_iff, elem_of_values.
    setoid_rewrite String.eqb_eq. naive_solver.
  - intros Hkeys. do 4 apply keep_if_NoDup. by apply (values_NoDup UserRead.id).
Qed.

(** X2: [list_profiles] never raises and never touches the stores; it
    returns exactly the live profiles that pass the owner filter and the
    case-insensitive username filter, where the request carries them; where
    the profiles are stored under their own ids, none is listed twice. *)
Theorem list_profiles_spec user_id username st :
  ∃ l, list_profiles user_id username st = (st, inr l)
    ∧ (∀ q, q ∈ l ↔
         (∃ k, profiles st !! k = Some q)
         ∧ (∀ x, user_id = Some x → ProfileRead.user_id q = x)
         ∧ (∀ x, username = Some x → lower (ProfileRead.username q) = lower x))
    ∧ (profile_keys_consistent st → NoDup l).
Proof.
  eexists. split; [apply list_profiles_result|]. split.
  - intros q. rewrite !elem_of_keep_if_iff, elem_of_values.
    setoid_rewrite String.eqb_eq. setoid_rewrite N.eqb_eq. naive_solver.
  - intros Hkeys. do 2 apply keep_if_NoDup. by apply (values_NoDup ProfileRead.id).
Qed.

Lemma keep_if_length {A F} (flt : option F) (p : F → A → bool) (l : list A) :
  (List.length (keep_if flt p l) ≤ List.length l)%nat.
Proof. destruct flt; simpl; [apply filter_length_le | done]. Qed.

Lemma list_filter_comm {A} (P Q : A → bool) (l : list A) :
  List.filter P (List.filter Q l) = List.filter Q (List.filter P l).
Proof.
  induction l as [|x l IH]; [done|]. simpl.
  destruct (Q x) eqn:HQ, (P x) eqn:HP; simpl; rewrite ?HQ, ?HP, IH; done.
Qed.

Lemma keep_if_comm {A F G} (f : option F) (g : option G)
    (p : F → A → bool) (q : G → A → bool) (l : list A) :
  keep_if f p (keep_if g q l) = keep_if g q (keep_if f p l).
Proof. destruct f, g; simpl; [apply list_filter_comm | done..]. Qed.

(** Among entries with pairwise distinct keys, a test that at most one
    key passes selects at most one value. *)
Lemma filter_one_key {V} (P : V → bool) (l : list (UUID * V)) :
  NoDup l.*1 →
  (∀ i j u v, (i, u) ∈ l → (j, v) ∈ l → P u = true → P v = true → i = j) →
  (List.length (List.filter P l.*2) ≤ 1)%nat.
Proof.
  induction l as [|[k x] l IH]; intros Hnd Hone; [simpl; lia|].
  rewrite fmap_cons in Hnd. apply NoDup_cons in Hnd as [Hk Hnd].
  rewrite fmap_cons. cbn [List.filter snd]. destruct (P x) eqn:HPx.
  - enough (List.filter P l.*2 = []) as -> by (simpl; lia).
    destruct (List.filter P l.*2) as [|y rest] eqn:Hf; [done|]. exfalso.
    assert (In y (List.filter P l.*2)) as Hy by (rewrite Hf; by left).
    apply filter_In in Hy as [Hy HPy].
    apply list_elem_of_In, list_elem_of_fmap in Hy as [[j y'] [-> Hin]].
    apply Hk. assert (k = j) as ->.
    { eapply Hone; [by left | by right | done..]. }
    apply list_elem_of_fmap. by exists (j, y').
  - apply IH; [done|]. intros i j u v Hi Hj. apply Hone; by right.
Qed.

Lemma values_filter_one {V} (P : V → bool) (m : gmap UUID V) :
  (∀ i j u v, m !! i = Some u → m !! j = Some v → P u = true → P v = true → i = j) →
  (List.length (List.filter P (values m)) ≤ 1)%nat.
Proof.
  intros Hone. apply filter_one_key; [apply NoDup_fst_map_to_list|].
  intros i j u v Hi%elem_of_map_to_list Hj%elem_of_map_to_list. by apply Hone.
Qed.

(** X3: in stores where no two live users share an email or a phone
    number, a listing filtered by email, or by phone, returns at most one
    user, whatever the other filters. *)
Theorem list_users_by_unique_field n e p t st l :
  users_unique st →
  is_Some e ∨ is_Some p →
  (list_users n e p t st).2 = inr l →
  (List.length l ≤ 1)%nat.
Proof.
  intros Huniq Hfilter. rewrite list_users_result. simpl. intros [= <-].
  etrans; [apply keep_if_length|].
  destruct Hfilter as [[x ->]|[x ->]].
  - etrans; [apply keep_if_length|]. rewrite keep_if_comm.
    etrans; [apply keep_if_length|]. simpl.
    apply values_filter_one. intros i j u v Hi Hj Hu%String.eqb_eq Hv%String.eqb_eq.
    destruct (decide (i = j)) as [|Hne]; [done|].
    destruct (Huniq i j u v Hi Hj Hne) as [Hemail _]. congruence.
  - rewrite (keep_if_comm (Some x) e). etrans; [apply keep_if_length|].
    rewrite (keep_if_comm (Some x) n). etrans; [apply keep_if_length|]. simpl.
    apply values_filter_one. intros i j u v Hi Hj Hu%String.eqb_eq Hv%String.eqb_eq.
    destruct (decide (i = j)) as [|Hne]; [done|].
    destruct (Huniq i j u v Hi Hj Hne) as [_ Hphone]. congruence.
Qed.

(** X4: in stores where no two live profiles share a username or an
    owner, a listing filtered by owner, or by username, returns at most one
    profile. *)
Theorem list_profiles_by_unique_field user_id username st l :
  profiles_unique st →
  is_Some user_id ∨ is_Some username →
  (list_profiles user_id username st).2 = inr l →
  (List.length l ≤ 1)%nat.
Proof.
  intros Huniq Hfilter. rewrite list_profiles_result. simpl. intros [= <-].
  destruct Hfilter as [[x ->]|[x ->]].
  - etrans; [apply keep_if_length|]. simpl.
    apply values_filter_one. intros i j u v Hi Hj Hu%N.eqb_eq Hv%N.eqb_eq.
    destruct (decide (i = j)) as [|Hne]; [done|].
    destruct (Huniq i j u v Hi Hj Hne) as [_ Howner]. congruence.
  - rewrite keep_if_comm. etrans; [apply keep_if_length|]. simpl.
    apply values_filter_one. intros i j u v Hi Hj Hu%String.eqb_eq Hv%String.eqb_eq.
    destruct (decide (i = j)) as [|Hne]; [done|].
    destruct (Huniq i j u v Hi Hj Hne) as [Hname _]. congruence.
Qed.

(** ** Looking a user up by email *)

(** X5: [_find_user_by_email] returns a live user whose email equals the
    requested one up to case, and returns nothing exactly when no live user
    has such an email, that is, exactly when [_email_exists] says no. *)
Theorem find_user_by_email_spec email st :
  match _find_user_by_email email st with
  | Some u => (∃ k, users st !! k = Some u)
              ∧ lower (UserRead.email u) = lower email
              ∧ _email_exists email None st = true
  | None => (∀ k u, users st !! k = Some u → lower (UserRead.email u) ≠ lower email)
            ∧ _email_exists email None st = false
  end.
Proof.
  unfold _find_user_by_email.
  destruct (List.find _ _) as [u|] eqn:Hfind.
  - apply find_some in Hfind as [Hin Heq].
    apply list_elem_of_In, elem_of_values in Hin as [k Hk].
    apply String.eqb_eq in Heq. repeat split; [by exists k | done |].
    apply email_exists_true. exists k, u. done.
  - assert (∀ k u, users st !! k = Some u → lower (UserRead.email u) ≠ lower email)
      as Hnone.
    { intros k u Hk Heq.
      assert (In u (values (users st))) as Hin
        by (apply list_elem_of_In, elem_of_values; eauto).
      pose proof (find_none _ _ Hfind u Hin) as Hu. simpl in Hu.
      apply String.eqb_neq in Hu. done. }
    split; [done|]. apply not_true_is_false. intros Hex.
    apply email_exists_true in Hex as (k & u & Hk & Heq & _). by eapply Hnone.
Qed.


(** ** What every reachable store satisfies *)

Lemma serve_keeps_profile_keys st req :
  profile_keys_consistent st → profile_keys_consistent (serve st req).
Proof.
  intros Hkeys. rewrite serve_cases.
  destruct req as [new_id now payload| | |i patch|i|new_id payload| | |i patch|i];
    try done.
  - intros k p. destruct (create_user_frame new_id now payload st) as [-> _]. apply Hkeys.
  - intros k p. destruct (update_user_frame i patch st) as [-> _]. apply Hkeys.
  - intros k p. destruct (delete_user_frame i st) as [-> _]. apply Hkeys.
  - rewrite create_profile_run. destruct (users st !! _); [|done].
    destruct (profiles_by_user st !! _); [done|].
    destruct (_username_exists _ _ st); [done|].
    intros k p. simpl. rewrite lookup_insert. case_decide; [by intros [= <-]|apply Hkeys].
  - rewrite update_profile_run. destruct (profiles st !! i) as [cur|] eqn:Hcur; [|done].
    destruct (truthy (ProfileUpdate.username patch) && _); [done|].
    intros k p. simpl. rewrite lookup_insert. case_decide; [|apply Hkeys].
    intros [= <-]. simpl. subst. by apply Hkeys.
  - rewrite delete_profile_run. destruct (profiles st !! i); [|done].
    intros k p. simpl. rewrite lookup_delete. case_decide; [done|apply Hkeys].
Qed.

Lemma serve_keeps_secrets st req :
  secrets_track_users st → secrets_track_users (serve st req).
Proof.
  unfold secrets_track_users. intros Hdom. rewrite serve_cases.
  destruct req as [new_id now payload| | |i patch|i|new_id payload| | |i patch|i];
    try done.
  - rewrite create_user_run.
    destruct (_email_exists _ _ st); [done|]. destruct (_phone_exists _ _ st); [done|].
    simpl. rewrite !dom_insert_L. by rewrite Hdom.
  - rewrite update_user_run. destruct (users st !! i) as [cur|] eqn:Hcur; [|done].
    destruct (truthy (UserUpdate.email patch) && _); [done|].
    destruct (truthy (UserUpdate.phone patch) && _); [done|].
    simpl. assert (i ∈ dom (users st)) as Hi by (apply elem_of_dom; eauto).
    destruct (UserUpdate.new_password patch); rewrite !dom_insert_L; set_solver.
  - rewrite delete_user_run. destruct (users st !! i); [|done].
    simpl. rewrite !dom_delete_L. by rewrite Hdom.
  - by destruct (create_profile_frame new_id payload st) as [-> ->].
  - by destruct (update_profile_frame i patch st) as [-> ->].
  - by destruct (delete_profile_frame i st) as [-> ->].
Qed.

(** X7: in every reachable state, whatever the requests were, each user
    and each profile is stored under its own id, and the secret store has
    an entry for exactly the live users. *)
Theorem reachable_stores_consistent st :
  reachable st →
  user_keys_consistent st ∧ profile_keys_consistent st ∧ secrets_track_users st.
Proof.
  intros [reqs ->]. induction reqs as [|req reqs IH] using rev_ind.
  - repeat split; repeat intros ?; simpl in *; by simplify_map_eq.
  - rewrite serve_all_app. simpl. destruct IH as (Hu & Hp & Hs).
    split; [|split].
    + by apply serve_keeps_user_keys.
    + by apply serve_keeps_profile_keys.
    + by apply serve_keeps_secrets.
Qed.

(** ** Writes followed by reads *)

(** X9: what [create_user] and [update_user] return is what a following
    [get_user] on that id returns, and after a successful creation the
    secret store holds the payload's password under the new id. *)
Theorem user_write_then_get st :
  (∀ new_id now payload u,
     (create_user new_id now payload st).2 = inr u →
     let st' := (create_user new_id now payload st).1 in
     get_user (UserRead.id u) st' = (st', inr u)
     ∧ user_secrets st' !! UserRead.id u = Some (mkSecret (UserCreate.password payload)))
  ∧ (∀ user_id patch u,
       (update_user user_id patch st).2 = inr u →
       let st' := (update_user user_id patch st).1 in
       get_user user_id st' = (st', inr u)).
Proof.
  split.
  - intros new_id now payload u. rewrite create_user_run.
    destruct (_email_exists _ _ st); [done|]. destruct (_phone_exists _ _ st); [done|].
    simpl. intros [= <-]. rewrite get_user_run. simpl.
    by rewrite !lookup_insert_eq.
  - intros user_id patch u. rewrite update_user_run.
    destruct (users st !! user_id) as [cur|]; [|done].
    destruct (truthy (UserUpdate.email patch) && _); [done|].
    destruct (truthy (UserUpdate.phone patch) && _); [done|].
    simpl. intros [= <-]. rewrite get_user_run. simpl.
    by rewrite !lookup_insert_eq.
Qed.

(** X10: what [create_profile] and [update_profile] return is what a
    following [get_profile] on that id returns, and after a successful
    creation the index maps the owner to the new profile. *)
Theorem profile_write_then_get st :
  (∀ new_id payload p,
     (create_profile new_id payload st).2 = inr p →
     let st' := (create_profile new_id payload st).1 in
     get_profile (ProfileRead.id p) st' = (st', inr p)
     ∧ profiles_by_user st' !! ProfileRead.user_id p = Some (ProfileRead.id p))
  ∧ (∀ profile_id patch p,
       (update_profile profile_id patch st).2 = inr p →
       let st' := (update_profile profile_id patch st).1 in
       get_profile profile_id st' = (st', inr p)).
Proof.
  split.
  - intros new_id payload p. rewrite create_profile_run.
    destruct (users st !! _); [|done]. destruct (profiles_by_user st !! _); [done|].
    destruct (_username_exists _ _ st); [done|].
    simpl. intros [= <-]. rewrite get_profile_run. simpl.
    by rewrite !lookup_insert_eq.
  - intros profile_id patch p. rewrite update_profile_run.
    destruct (profiles st !! profile_id) as [cur|]; [|done].
    destruct (truthy (ProfileUpdate.username patch) && _); [done|].
    simpl. intros [= <-]. rewrite get_profile_run. simpl.
    by rewrite !lookup_insert_eq.
Qed.

(** ** When an update is accepted *)


(** X12: in well-formed user stores a user may be patched with its own
    email, in any letter case, and its own phone number: the update is
    accepted. *)
Theorem update_user_own_values_accepted st user_id patch cur :
  user_keys_consistent st → users_unique st →
  users st !! user_id = Some cur →
  (∀ e, UserUpdate.email patch = Some e → lower e = lower (UserRead.email cur)) →
  (∀ p, UserUpdate.phone patch = Some p → p = UserRead.phone cur) →
  (update_user user_id patch st).2 = inr (merge_user cur patch).
Proof.
  intros Hkeys Huniq Hcur Hemail Hphone. rewrite update_user_run, Hcur.
  destruct (truthy (UserUpdate.email patch) && _) eqn:He.
  { exfalso. apply andb_true_iff in He as [(e & He & Hne)%truthy_true Hex].
    rewrite He in Hex. simpl in Hex.
    apply email_exists_true in Hex as (k & u & Hk & Heq & Hx).
    rewrite (Hkeys _ _ Hk) in Hx.
    destruct (Huniq k user_id u cur Hk Hcur) as [Hdiff _]; [congruence|].
    rewrite (Hemail e He) in Heq. done. }
  destruct (truthy (UserUpdate.phone patch) && _) eqn:Hp; [|done].
  exfalso. apply andb_true_iff in Hp as [(p & Hp & Hne)%truthy_true Hex].
  rewrite Hp in Hex. simpl in Hex.
  apply phone_exists_true in Hex as (k & u & Hk & Heq & Hx).
  rewrite (Hkeys _ _ Hk) in Hx.
  destruct (Huniq k user_id u cur Hk Hcur) as [_ Hdiff]; [congruence|].
  rewrite (Hphone p Hp) in Heq. done.
Qed.


(** ** What a delete frees, and what it leaves behind *)

(** X14: where no two live users share an email or a phone number,
    deleting a user frees both: a creation with the deleted user's email
    (in any letter case) and phone number is accepted right after. *)
Theorem delete_user_frees_email_and_phone st user_id cur new_id now payload :
  users_unique st →
  users st !! user_id = Some cur →
  lower (UserCreate.email payload) = lower (UserRead.email cur) →
  UserCreate.phone payload = UserRead.phone cur →
  (create_user new_id now payload (delete_user user_id st).1).2
  = inr (user_of_create new_id now payload).
Proof.
  intros Huniq Hcur Hemail Hphone.
  rewrite delete_user_run, Hcur. rewrite create_user_run. simpl.
  destruct (_email_exists _ _ _) eqn:He.
  { exfalso. apply email_exists_true in He as (k & u & Hk & Heq & _).
    simpl in Hk. apply lookup_delete_Some in Hk as [Hne Hk].
    destruct (Huniq k user_id u cur Hk Hcur) as [Hdiff _]; [done|]. congruence. }
  destruct (_phone_exists _ _ _) eqn:Hp; [|done].
  exfalso. apply phone_exists_true in Hp as (k & u & Hk & Heq & _).
  simpl in Hk. apply lookup_delete_Some in Hk as [Hne Hk].
  destruct (Huniq k user_id u cur Hk Hcur) as [_ Hdiff]; [done|]. congruence.
Qed.


(** X16: after a successful [delete_user], updating or deleting the same
    id raises a 404 and leaves the stores alone; the same holds for
    fetching, updating or deleting a profile after a successful
    [delete_profile]. *)
Theorem deleted_ids_are_not_found st :
  (∀ user_id patch,
     succeeded (delete_user user_id st) = true →
     let st1 := (delete_user user_id st).1 in
     update_user user_id patch st1 = (st1, inl (mkHTTPException 404 "User not found"))
     ∧ delete_user user_id st1 = (st1, inl (mkHTTPException 404 "User not found")))
  ∧ (∀ profile_id patch,
       succeeded (delete_profile profile_id st) = true →
       let st1 := (delete_profile profile_id st).1 in
       get_profile profile_id st1
       = (st1, inl (mkHTTPException 404 "Profile not found"))
       ∧ update_profile profile_id patch st1
         = (st1, inl (mkHTTPException 404 "Profile not found"))
       ∧ delete_profile profile_id st1
         = (st1, inl (mkHTTPException 404 "Profile not found"))).
Proof.
  split.
  - intros user_id patch. rewrite delete_user_run.
    destruct (users st !! user_id); [|done]. intros _. simpl.
    rewrite update_user_run, delete_user_run. simpl.
    by rewrite lookup_delete_eq.
  - intros profile_id patch. rewrite delete_profile_run.
    destruct (profiles st !! profile_id); [|done]. intros _. simpl.
    rewrite get_profile_run, update_profile_run, delete_profile_run. simpl.
    by rewrite lookup_delete_eq.
Qed.

(** ** Creating a profile: acceptance and the order of the checks *)

(** X17: [create_profile] accepts a request whose user is live, has no
    index entry, and whose username no live profile has up to case: it
    returns the new profile, stores it under the generated id, records the
    owner in the index, and leaves the user dictionaries alone. *)
Theorem create_profile_accepts new_id payload st :
  is_Some (users st !! ProfileCreate.user_id payload) →
  profiles_by_user st !! ProfileCreate.user_id payload = None →
  (∀ k p, profiles st !! k = Some p →
          lower (ProfileRead.username p) ≠ lower (ProfileCreate.username payload)) →
  create_profile new_id payload st =
  (mkStores (users st) (user_secrets st)
            (<[new_id := profile_of_create new_id payload]> (profiles st))
            (<[ProfileCreate.user_id payload := new_id]> (profiles_by_user st)),
   inr (profile_of_create new_id payload)).
Proof.
  intros [owner Howner] Hidx Hfree. rewrite create_profile_run, Howner, Hidx.
  destruct (_username_exists _ _ st) eqn:Hname; [|done].
  exfalso. apply username_exists_true in Hname as (k & p & Hk & Heq & _).
  by eapply Hfree.
Qed.

(** X18: when [create_profile] raises, the message names the first check
    that failed, in the order: the user exists, the user has no profile,
    the username is free. *)
Theorem create_profile_error_order new_id payload st e :
  (create_profile new_id payload st).2 = inl e →
  status_code e = 400
  ∧ detail e =
    match users st !! ProfileCreate.user_id payload,
          profiles_by_user st !! ProfileCreate.user_id payload with
    | None, _ => "User does not exist"
    | Some _, Some _ => "User already has a profile"
    | Some _, None => "Username already exists"
    end.
Proof.
  rewrite create_profile_run.
  destruct (users st !! _); [|by intros [= <-]].
  destruct (profiles_by_user st !! _); [by intros [= <-]|].
  destruct (_username_exists _ _ st); [by intros [= <-]|done].
Qed.

(** ** Status codes *)

(** X19: the status of a raised exception depends on the kind of request:
    creations raise only 400, fetches and deletions only 404, updates 404
    or 400, and listings never raise. *)
Theorem raised_status_by_request req st e :
  (handle req st).2 = inl e → status_code e ∈ raisable req.
Proof.
  intros Hfail.
  destruct req as [new_id now payload|n em p t|i|i patch|i|new_id payload|u n|i|i patch|i];
    apply hmap_failed in Hfail; revert Hfail; simpl.
  - rewrite create_user_run.
    destruct (_email_exists _ _ st); [intros [= <-]; set_solver|].
    destruct (_phone_exists _ _ st); [intros [= <-]; set_solver|done].
  - done.
  - rewrite get_user_run. destruct (users st !! i); [done|intros [= <-]; set_solver].
  - rewrite update_user_run. destruct (users st !! i); [|intros [= <-]; set_solver].
    destruct (truthy (UserUpdate.email patch) && _); [intros [= <-]; set_solver|].
    destruct (truthy (UserUpdate.phone patch) && _); [intros [= <-]; set_solver|done].
  - rewrite delete_user_run. destruct (users st !! i); [done|intros [= <-]; set_solver].
  - rewrite create_profile_run.
    destruct (users st !! _); [|intros [= <-]; set_solver].
    destruct (profiles_by_user st !! _); [intros [= <-]; set_solver|].
    destruct (_username_exists _ _ st); [intros [= <-]; set_solver|done].
  - done.
  - rewrite get_profile_run. destruct (profiles st !! i); [done|intros [= <-]; set_solver].
  - rewrite update_profile_run. destruct (profiles st !! i); [|intros [= <-]; set_solver].
    destruct (truthy (ProfileUpdate.username patch) && _); [intros [= <-]; set_solver|done].
  - rewrite delete_profile_run.
    destruct (profiles st !! i); [done|intros [= <-]; set_solver].
Qed.

(** ** Patches that change nothing, and patches applied twice *)

Lemma merge_user_empty cur : merge_user cur empty_user_patch = cur.
Proof. by destruct cur. Qed.

Lemma merge_profile_empty cur : merge_profile cur empty_profile_patch = cur.
Proof.
  destruct cur as [i o n d]. unfold merge_profile. simpl. f_equal.
  apply (left_id_L ∅ (∪)).
Qed.

Lemma merge_user_twice cur patch :
  merge_user (merge_user cur patch) patch = merge_user cur patch.
Proof.
  destruct patch as [n e p t pw]. unfold merge_user. simpl.
  by destruct n, e, p, t.
Qed.

Lemma merge_profile_twice cur patch :
  merge_profile (merge_profile cur patch) patch = merge_profile cur patch.
Proof.
  destruct patch as [o n d]. unfold merge_profile. simpl. f_equal.
  - by destruct o.
  - by destruct n.
  - by rewrite (assoc_L (∪)), (idemp_L (∪)).
Qed.

(** X20: a patch with an empty body on a live user, or on a live profile,
    is accepted, returns the stored record and leaves all four dictionaries
    exactly as they were. *)
Theorem empty_patch_is_identity st :
  (∀ user_id cur, users st !! user_id = Some cur →
     update_user user_id empty_user_patch st = (st, inr cur))
  ∧ (∀ profile_id cur, profiles st !! profile_id = Some cur →
       update_profile profile_id empty_profile_patch st = (st, inr cur)).
Proof.
  split.
  - intros user_id cur Hcur. rewrite update_user_run, Hcur. simpl.
    rewrite merge_user_empty, insert_id by done. by destruct st.
  - intros profile_id cur Hcur. rewrite update_profile_run, Hcur. simpl.
    rewrite merge_profile_empty, insert_id by done. by destruct st.
Qed.

(** X21: serving the same update twice leaves the stores as serving it
    once does, for users and for profiles, whether the update is accepted
    or rejected. *)
Theorem update_twice_same_stores st :
  (∀ user_id patch,
     (update_user user_id patch (update_user user_id patch st).1).1
     = (update_user user_id patch st).1)
  ∧ (∀ profile_id patch,
       (update_profile profile_id patch (update_profile profile_id patch st).1).1
       = (update_profile profile_id patch st).1).
Proof.
  split.
  - intros user_id patch. rewrite (update_user_run user_id patch st).
    destruct (users st !! user_id) as [cur|] eqn:Hcur; cbn [fst];
      [|by rewrite update_user_run, Hcur].
    destruct (truthy (UserUpdate.email patch) && _) eqn:He; cbn [fst];
      [by rewrite update_user_run, Hcur, He|].
    destruct (truthy (UserUpdate.phone patch) && _) eqn:Hp; cbn [fst];
      [by rewrite update_user_run, Hcur, He, Hp|].
    clear He Hp. rewrite update_user_run.
    cbn [users user_secrets profiles profiles_by_user].
    rewrite lookup_insert_eq.
    repeat match goal with
           | |- context [if ?c then _ else _] => destruct c; [done|]
           end.
    cbn [fst]. rewrite merge_user_twice, insert_insert_eq.
    destruct (UserUpdate.new_password patch); by rewrite ?insert_insert_eq.
  - intros profile_id patch. rewrite (update_profile_run profile_id patch st).
    destruct (profiles st !! profile_id) as [cur|] eqn:Hcur; cbn [fst];
      [|by rewrite update_profile_run, Hcur].
    destruct (truthy (ProfileUpdate.username patch) && _) eqn:Hn; cbn [fst];
      [by rewrite update_profile_run, Hcur, Hn|].
    clear Hn. rewrite update_profile_run.
    cbn [users user_secrets profiles profiles_by_user].
    rewrite lookup_insert_eq.
    repeat match goal with
           | |- context [if ?c then _ else _] => destruct c; [done|]
           end.
    cbn [fst]. by rewrite merge_profile_twice, insert_insert_eq.
Qed.

(** ** Which dictionaries a request can change *)

(** X22: a request served by the user handlers leaves [profiles] and
    [profiles_by_user] as they were, and a request served by the profile
    handlers leaves [users] and [user_secrets] as they were, whether it
    succeeds or not. *)
Theorem stores_are_separate st req :
  (user_request req = true →
     profiles (serve st req) = profiles st
     ∧ profiles_by_user (serve st req) = profiles_by_user st)
  ∧ (profile_request req = true →
       users (serve st req) = users st
       ∧ user_secrets (serve st req) = user_secrets st).
Proof.
  rewrite serve_cases.
  destruct req as [new_id now payload| | |i patch|i|new_id payload| | |i patch|i];
    (split; [intros Hkind|intros Hkind]); try done.
  - apply create_user_frame.
  - apply update_user_frame.
  - apply delete_user_frame.
  - apply create_profile_frame.
  - apply update_profile_frame.
  - apply delete_profile_frame.
Qed.

(** X23: a request changes the record dictionaries at most at the id it
    addresses (the id in its path, or the id generated for the record it
    creates): under every other id, [users], [user_secrets] and [profiles]
    hold what they held before. *)
Theorem other_records_untouched st req k :
  addressed req ≠ Some k →
  users (serve st req) !! k = users st !! k
  ∧ user_secrets (serve st req) !! k = user_secrets st !! k
  ∧ profiles (serve st req) !! k = profiles st !! k.
Proof.
  intros Hk. rewrite serve_cases.
  destruct req as [new_id now payload| | |i patch|i|new_id payload| | |i patch|i];
    try done; simpl in Hk.
  - assert (new_id ≠ k) as Hne by congruence. rewrite create_user_run.
    destruct (_email_exists _ _ st); [done|]. destruct (_phone_exists _ _ st); [done|].
    simpl. by rewrite !lookup_insert_ne.
  - assert (i ≠ k) as Hne by congruence. rewrite update_user_run.
    destruct (users st !! i); [|done].
    destruct (truthy (UserUpdate.email patch) && _); [done|].
    destruct (truthy (UserUpdate.phone patch) && _); [done|].
    simpl. destruct (UserUpdate.new_password patch); by rewrite !lookup_insert_ne.
  - assert (i ≠ k) as Hne by congruence. rewrite delete_user_run.
    destruct (users st !! i); [|done]. simpl. by rewrite !lookup_delete_ne.
  - assert (new_id ≠ k) as Hne by congruence. rewrite create_profile_run.
    destruct (users st !! _); [|done]. destruct (profiles_by_user st !! _); [done|].
    destruct (_username_exists _ _ st); [done|]. simpl. by rewrite lookup_insert_ne.
  - assert (i ≠ k) as Hne by congruence. rewrite update_profile_run.
    destruct (profiles st !! i); [|done].
    destruct (truthy (ProfileUpdate.username patch) && _); [done|].
    simpl. by rewrite lookup_insert_ne.
  - assert (i ≠ k) as Hne by congruence. rewrite delete_profile_run.
    destruct (profiles st !! i); [|done]. simpl. by rewrite lookup_delete_ne.
Qed.

(** ** Passwords and the order of the checks on users *)

(** X24: an accepted [update_user] whose body carries a new password
    stores that password as the user's secret; the public record it returns
    is the stored record merged with the other fields of the patch. *)
Theorem update_user_replaces_password st user_id patch pw u :
  UserUpdate.new_password patch = Some pw →
  (update_user user_id patch st).2 = inr u →
  user_secrets (update_user user_id patch st).1 !! user_id = Some (mkSecret pw)
  ∧ ∃ cur, users st !! user_id = Some cur ∧ u = merge_user cur patch.
Proof.
  intros Hpw. rewrite update_user_run.
  destruct (users st !! user_id) as [cur|]; [|done].
  destruct (truthy (UserUpdate.email patch) && _); [done|].
  destruct (truthy (UserUpdate.phone patch) && _); [done|].
  simpl. intros [= <-]. rewrite Hpw, lookup_insert_eq. eauto.
Qed.

(** X25: when [create_user] raises, the email is reported before the
    phone number: the message is "Email already exists" when a live user
    has the email up to case, and "Phone already exists" otherwise, in which
    case a live user has the phone number. *)
Theorem create_user_error_order new_id now payload st e :
  (create_user new_id now payload st).2 = inl e →
  status_code e = 400
  ∧ ((∃ k u, users st !! k = Some u
             ∧ lower (UserRead.email u) = lower (UserCreate.email payload))
     ∧ detail e = "Email already exists"
     ∨ (∀ k u, users st !! k = Some u →
               lower (UserRead.email u) ≠ lower (UserCreate.email payload))
       ∧ (∃ k u, users st !! k = Some u
                 ∧ UserRead.phone u = UserCreate.phone payload)
       ∧ detail e = "Phone already exists").
Proof.
  rewrite create_user_run.
  destruct (_email_exists _ _ st) eqn:He.
  { intros [= <-]. split; [done|]. left. split; [|done].
    apply email_exists_true in He as (k & u & Hk & Heq & _). eauto. }
  destruct (_phone_exists _ _ st) eqn:Hp; [|done].
  intros [= <-]. split; [done|]. right. split; [|split; [|done]].
  - intros k u Hk. by eapply (email_exists_false _ _ _ He k u).
  - apply phone_exists_true in Hp as (k & u & Hk & Heq & _). eauto.
Qed.

End Properties.

(** * The handlers run on sample requests *)

#[global] Existing Instance ascii_lower.

(** ** The scenario of the specification, run on the handlers *)

Example scenario_duplicate_email :
  (create_user 2 0 user_B_same_email (serve_all empty_stores [CreateUser 1 0 user_A])).2
  = inl (mkHTTPException 400 "Email already exists").
Proof. vm_compute. reflexivity. Qed.

Example scenario_second_profile :
  (create_profile 11 profile_alice user_with_profile).2
  = inl (mkHTTPException 400 "User already has a profile").
Proof. vm_compute. reflexivity. Qed.

Example scenario_username_collision :
  (create_profile 20 profile_ALICE_for_B
     (serve_all two_users [CreateProfile 10 profile_alice])).2
  = inl (mkHTTPException 400 "Username already exists").
Proof. vm_compute. reflexivity. Qed.

Example scenario_profile_survives_owner :
  let st := serve user_with_profile (DeleteUser 1) in
  (get_user 1 st).2 = inl (mkHTTPException 404 "User not found")
  ∧ (get_profile 10 st).2 = inr (profile_of_create 10 profile_alice).
Proof. vm_compute. done. Qed.

Example scenario_patch_one_descriptive_field :
  (update_profile 10 patch_bio_only two_profiles).2
  = inr (ProfileRead.mk 10 1 "alice" {[ "bio" := "changed" ]}).
Proof. vm_compute. reflexivity. Qed.

(** C1: the claim is that no two live users ever share a phone number.
    [update_user] skips the uniqueness check when the new phone number is
    falsy: after two users are created with distinct phone numbers and each
    is patched with an empty phone number, both are live with the same
    phone number. *)
Theorem update_user_empty_phone_duplicates :
  let st := serve_all two_users
              [UpdateUser 1 patch_empty_phone; UpdateUser 2 patch_empty_phone] in
  reachable st
  ∧ (∃ u v, users st !! 1%N = Some u ∧ users st !! 2%N = Some v
            ∧ UserRead.phone u = UserRead.phone v)
  ∧ ¬ users_unique st.
Proof.
  intros st.
  assert (∃ u v, users st !! 1%N = Some u ∧ users st !! 2%N = Some v
                 ∧ UserRead.phone u = UserRead.phone v) as Hdup.
  { eexists _, _. vm_compute. done. }
  split; [|split; [done|]].
  - apply reachable_serve_all, reachable_serve_all, reachable_empty.
  - intros Huniq. destruct Hdup as (u & v & Hu & Hv & Heq).
    by destruct (Huniq 1%N 2%N u v Hu Hv).
Qed.

(** C2: the claim is that each user id owns at most one live profile.
    [update_profile] merges a patched [user_id] into the stored record:
    after users A and B each own a profile, patching B's profile with A's
    id leaves two live profiles owned by A. *)
Theorem update_profile_owner_duplicates :
  let st := serve two_profiles (UpdateProfile 20 (patch_owner 1)) in
  reachable st
  ∧ (∃ p q, profiles st !! 10%N = Some p ∧ profiles st !! 20%N = Some q
            ∧ ProfileRead.user_id p = 1%N ∧ ProfileRead.user_id q = 1%N)
  ∧ ¬ profiles_unique st.
Proof.
  intros st.
  assert (∃ p q, profiles st !! 10%N = Some p ∧ profiles st !! 20%N = Some q
                 ∧ ProfileRead.user_id p = 1%N ∧ ProfileRead.user_id q = 1%N) as Hdup.
  { eexists _, _. vm_compute. done. }
  split; [|split; [done|]].
  - apply reachable_serve, reachable_serve_all, reachable_serve_all, reachable_empty.
  - intros Huniq. destruct Hdup as (p & q & Hp & Hq & Hop & Hoq).
    destruct (Huniq 10%N 20%N p q Hp Hq) as [_ Hne]; [done|]. congruence.
Qed.

(** C7: the claim is that a creation for a user who already owns a
    profile is rejected.  [create_profile] looks for the owner in the index
    only, and [update_profile] changes the owner of a record without
    touching the index: after B's profile is patched with A's id and A's
    own profile is deleted, A owns the live profile 20 but has no index
    entry, and a creation for A is accepted, which gives A two live
    profiles. *)
Theorem create_profile_second_for_owner :
  let st := serve_all two_profiles [UpdateProfile 20 (patch_owner 1); DeleteProfile 10] in
  let r := create_profile 30 profile_carol_for_A st in
  reachable st
  ∧ is_Some (users st !! 1%N)
  ∧ (ProfileRead.user_id <$> profiles st !! 20%N) = Some 1%N
  ∧ profiles_by_user st !! 1%N = None
  ∧ r.2 = inr (profile_of_create 30 profile_carol_for_A)
  ∧ (ProfileRead.user_id <$> profiles r.1 !! 20%N) = Some 1%N
  ∧ (ProfileRead.user_id <$> profiles r.1 !! 30%N) = Some 1%N.
Proof.
  intros st r. split.
  - apply reachable_serve_all, reachable_serve_all, reachable_serve_all, reachable_empty.
  - split; [vm_compute; eauto|]. vm_compute. done.
Qed.

(** The same truthiness test guards the username check of
    [update_profile]: two profiles patched with an empty username end up
    sharing it. *)
Lemma update_profile_empty_username_duplicates :
  let st := serve_all two_profiles
              [UpdateProfile 10 patch_empty_username; UpdateProfile 20 patch_empty_username] in
  ∃ p q, profiles st !! 10%N = Some p ∧ profiles st !! 20%N = Some q
         ∧ ProfileRead.username p = ProfileRead.username q.
Proof. eexists _, _. vm_compute. done. Qed.

(** C3, as stated, fails: user A owns the profile "alice"; after A is
    deleted the index still maps A to that profile. *)
Lemma delete_user_keeps_index_entry :
  let st := user_with_profile in
  let st' := (delete_user 1 st).1 in
  ¬ (is_Some (users st !! 1%N) →
     (∃ p, profiles st !! 10%N = Some p ∧ ProfileRead.user_id p = 1%N) →
     profiles_by_user st !! 1%N = Some 10%N →
     users st' !! 1%N = None
     ∧ user_secrets st' !! 1%N = None
     ∧ profiles_by_user st' !! 1%N = None
     ∧ profiles st' !! 10%N = profiles st !! 10%N).
Proof.
  intros st st' Hclaim.
  assert (profiles_by_user st' !! 1%N = Some 10%N) as Hidx by (vm_compute; done).
  destruct Hclaim as (_ & _ & Hnone & _).
  - vm_compute. eauto.
  - eexists. vm_compute. done.
  - vm_compute. done.
  - congruence.
Qed.

Lemma delete_user_removes_user_only_witness :
  is_Some (users user_with_profile !! 1%N)
  ∧ users (delete_user 1 user_with_profile).1 !! 1%N = None
  ∧ profiles_by_user (delete_user 1 user_with_profile).1 !! 1%N = Some 10%N
  ∧ profiles (delete_user 1 user_with_profile).1 !! 10%N
    = Some (profile_of_create 10 profile_alice).
Proof.
  assert (is_Some (users user_with_profile !! 1%N)) as Hlive
    by (vm_compute; eauto).
  split; [exact Hlive|].
  destruct (delete_user_removes_user_only user_with_profile 1 10
              (profile_of_create 10 profile_alice) Hlive)
    as (_ & Hu & _ & Hi & Hp & _); try (vm_compute; reflexivity).
  done.
Defined.

(** C4: the claim is that an update never changes the stored [user_id].
    [update_profile] merges every key of the patch: patching the profile
    of user A with [user_id] 2 succeeds and stores owner 2. *)
Theorem update_profile_changes_owner :
  let st := two_profiles in
  let r := update_profile 10 (patch_owner 2) st in
  (ProfileRead.user_id <$> profiles st !! 10%N) = Some 1%N
  ∧ succeeded r = true
  ∧ (ProfileRead.user_id <$> profiles r.1 !! 10%N) = Some 2%N.
Proof. vm_compute. done. Qed.

Lemma partial_update_keeps_absent_fields_witness :
  users two_users !! 1%N = Some (user_of_create 1 0 user_A)
  ∧ ∃ new, users (update_user 1 patch_name_only two_users).1 !! 1%N = Some new
      ∧ UserRead.email new = "a@x.com"
      ∧ UserRead.phone new = "1"
      ∧ UserRead.membership_tier new = FREE.
Proof.
  assert (users two_users !! 1%N = Some (user_of_create 1 0 user_A)) as Hcur
    by (vm_compute; reflexivity).
  split; [exact Hcur|].
  destruct (partial_update_keeps_absent_fields two_users) as [Huser _].
  destruct (Huser 1%N patch_name_only _ Hcur)
    as (new & Hnew & _ & _ & _ & He & Hp & Ht & _).
  exists new. split; [exact Hnew|].
  rewrite He, Hp, Ht by reflexivity. simpl. done.
Defined.


Lemma create_profile_rejects_witness :
  is_Some (profiles_by_user user_with_profile !! ProfileCreate.user_id profile_alice)
  ∧ failed_with 400 (create_profile 11 profile_alice user_with_profile)
  ∧ (create_profile 11 profile_alice user_with_profile).1 = user_with_profile.
Proof.
  assert (is_Some (profiles_by_user user_with_profile
                     !! ProfileCreate.user_id profile_alice)) as Hidx
    by (vm_compute; eauto).
  split; [exact Hidx|].
  apply (create_profile_rejects 11 profile_alice user_with_profile).
  right. left. exact Hidx.
Defined.

Lemma failed_request_leaves_stores_witness :
  (handle (UpdateProfile 20 (ProfileUpdate.mk None (Some "Alice") ∅)) two_profiles).2
  = inl (mkHTTPException 400 "Username already exists")
  ∧ (handle (UpdateProfile 20 (ProfileUpdate.mk None (Some "Alice") ∅)) two_profiles).1
    = two_profiles.
Proof.
  assert ((handle (UpdateProfile 20 (ProfileUpdate.mk None (Some "Alice") ∅))
             two_profiles).2
          = inl (mkHTTPException 400 "Username already exists")) as Hfail
    by (vm_compute; reflexivity).
  split; [exact Hfail|].
  exact (failed_request_leaves_stores _ _ _ Hfail).
Defined.

Lemma deleted_user_stays_gone_witness :
  reachable two_users
  ∧ succeeded (delete_user 1 two_users) = true
  ∧ failed_with 404
      (get_user 1 (serve_all (delete_user 1 two_users).1
                     [CreateUser 3 0 user_A; UpdateUser 2 patch_name_only])).
Proof.
  assert (reachable two_users) as Hreach.
  { exists [CreateUser 1 0 user_A; CreateUser 2 0 user_B]. reflexivity. }
  assert (succeeded (delete_user 1 two_users) = true) as Hdel
    by (vm_compute; reflexivity).
  split; [exact Hreach|]. split; [exact Hdel|].
  destruct (deleted_user_stays_gone two_users 1
              [CreateUser 3 0 user_A; UpdateUser 2 patch_name_only]
              Hreach Hdel) as (_ & Hget & _).
  - vm_compute. reflexivity.
  - exact Hget.
Defined.

Lemma profile_recreate_after_delete_witness :
  is_Some (users user_with_profile !! 1%N)
  ∧ profiles user_with_profile !! 10%N = Some (profile_of_create 10 profile_alice)
  ∧ (create_profile 11 profile_alice (delete_profile 10 user_with_profile).1).2
    = inr (profile_of_create 11 profile_alice).
Proof.
  assert (is_Some (users user_with_profile !! 1%N)) as Hlive
    by (vm_compute; eauto).
  assert (profiles user_with_profile !! 10%N
          = Some (profile_of_create 10 profile_alice)) as Hprof
    by (vm_compute; reflexivity).
  split; [exact Hlive|]. split; [exact Hprof|].
  destruct (profile_recreate_after_delete user_with_profile 1 10
              (profile_of_create 10 profile_alice) 11 profile_alice
              Hlive Hprof eq_refl eq_refl) as (_ & _ & Hnew & _).
  - intros k q Hk. vm_compute in Hk. discriminate Hk.
  - exact Hnew.
Defined.

(** ** The properties above, applied to sample requests *)

(** The sample stores are well-formed. *)
Lemma two_users_inv : store_inv two_users.
Proof. apply serve_all_keeps_inv; [reflexivity | apply store_inv_empty]. Qed.

Lemma two_profiles_inv : store_inv two_profiles.
Proof. apply serve_all_keeps_inv; [reflexivity | apply two_users_inv]. Qed.

Lemma user_with_profile_inv : store_inv user_with_profile.
Proof. apply serve_all_keeps_inv; [reflexivity | apply store_inv_empty]. Qed.

Lemma list_users_by_unique_field_witness :
  users_unique two_users
  ∧ (list_users None (Some "A@x.COM") None None two_users).2
    = inr [user_of_create 1 0 user_A]
  ∧ (List.length [user_of_create 1 0 user_A] ≤ 1)%nat.
Proof.
  assert (users_unique two_users) as Huniq by apply two_users_inv.
  assert ((list_users None (Some "A@x.COM") None None two_users).2
          = inr [user_of_create 1 0 user_A]) as Hl by (vm_compute; reflexivity).
  split; [exact Huniq|]. split; [exact Hl|].
  apply (list_users_by_unique_field None (Some "A@x.COM") None None two_users _ Huniq).
  - left. eauto.
  - exact Hl.
Defined.

Lemma list_profiles_by_unique_field_witness :
  profiles_unique two_profiles
  ∧ (list_profiles (Some 2%N) None two_profiles).2
    = inr [profile_of_create 20 profile_bob]
  ∧ (List.length [profile_of_create 20 profile_bob] ≤ 1)%nat.
Proof.
  assert (profiles_unique two_profiles) as Huniq by apply two_profiles_inv.
  assert ((list_profiles (Some 2%N) None two_profiles).2
          = inr [profile_of_create 20 profile_bob]) as Hl by (vm_compute; reflexivity).
  split; [exact Huniq|]. split; [exact Hl|].
  apply (list_profiles_by_unique_field (Some 2%N) None two_profiles _ Huniq).
  - left. eauto.
  - exact Hl.
Defined.


Lemma reachable_stores_consistent_witness :
  reachable (serve two_profiles (UpdateProfile 20 (patch_owner 1)))
  ∧ secrets_track_users (serve two_profiles (UpdateProfile 20 (patch_owner 1))).
Proof.
  assert (reachable (serve two_profiles (UpdateProfile 20 (patch_owner 1)))) as Hreach.
  { exists [CreateUser 1 0 user_A; CreateUser 2 0 user_B;
            CreateProfile 10 profile_alice; CreateProfile 20 profile_bob;
            UpdateProfile 20 (patch_owner 1)]. reflexivity. }
  split; [exact Hreach|].
  apply (reachable_stores_consistent _ Hreach).
Defined.

Lemma benign_requests_keep_inv_witness :
  forallb benign [CreateUser 1 0 user_A; UpdateUser 1 patch_email_case;
                  CreateProfile 10 profile_alice; UpdateProfile 10 patch_rename] = true
  ∧ store_inv (serve_all empty_stores
                 [CreateUser 1 0 user_A; UpdateUser 1 patch_email_case;
                  CreateProfile 10 profile_alice; UpdateProfile 10 patch_rename]).
Proof.
  split; [reflexivity|].
  apply (benign_requests_keep_inv
           [CreateUser 1 0 user_A; UpdateUser 1 patch_email_case;
            CreateProfile 10 profile_alice; UpdateProfile 10 patch_rename]).
  reflexivity.
Defined.

Lemma user_write_then_get_witness :
  (update_user 1 patch_name_only two_users).2
  = inr (merge_user (user_of_create 1 0 user_A) patch_name_only)
  ∧ (get_user 1 (update_user 1 patch_name_only two_users).1).2
    = inr (merge_user (user_of_create 1 0 user_A) patch_name_only).
Proof.
  assert ((update_user 1 patch_name_only two_users).2
          = inr (merge_user (user_of_create 1 0 user_A) patch_name_only)) as Hupd
    by (vm_compute; reflexivity).
  split; [exact Hupd|].
  destruct (user_write_then_get two_users) as [_ Hget].
  by rewrite (Hget 1%N patch_name_only _ Hupd).
Defined.

Lemma profile_write_then_get_witness :
  (update_profile 10 patch_rename two_profiles).2
  = inr (merge_profile (profile_of_create 10 profile_alice) patch_rename)
  ∧ (get_profile 10 (update_profile 10 patch_rename two_profiles).1).2
    = inr (merge_profile (profile_of_create 10 profile_alice) patch_rename).
Proof.
  assert ((update_profile 10 patch_rename two_profiles).2
          = inr (merge_profile (profile_of_create 10 profile_alice) patch_rename))
    as Hupd by (vm_compute; reflexivity).
  split; [exact Hupd|].
  destruct (profile_write_then_get two_profiles) as [_ Hget].
  by rewrite (Hget 10%N patch_rename _ Hupd).
Defined.


Lemma update_user_own_values_accepted_witness :
  users two_users !! 1%N = Some (user_of_create 1 0 user_A)
  ∧ (update_user 1 patch_email_case two_users).2
    = inr (merge_user (user_of_create 1 0 user_A) patch_email_case).
Proof.
  assert (users two_users !! 1%N = Some (user_of_create 1 0 user_A)) as Hcur
    by (vm_compute; reflexivity).
  split; [exact Hcur|].
  apply (update_user_own_values_accepted two_users 1 patch_email_case _);
    [apply two_users_inv | apply two_users_inv | exact Hcur | |].
  - intros e [= <-]. vm_compute. reflexivity.
  - intros p [=].
Defined.


Lemma delete_user_frees_email_and_phone_witness :
  users_unique two_users
  ∧ users two_users !! 1%N = Some (user_of_create 1 0 user_A)
  ∧ (create_user 3 5 user_A (delete_user 1 two_users).1).2
    = inr (user_of_create 3 5 user_A).
Proof.
  assert (users two_users !! 1%N = Some (user_of_create 1 0 user_A)) as Hcur
    by (vm_compute; reflexivity).
  split; [apply two_users_inv|]. split; [exact Hcur|].
  apply (delete_user_frees_email_and_phone two_users 1 (user_of_create 1 0 user_A)
           3 5 user_A);
    [apply two_users_inv | exact Hcur | reflexivity | reflexivity].
Defined.


Lemma deleted_ids_are_not_found_witness :
  succeeded (delete_profile 10 two_profiles) = true
  ∧ (get_profile 10 (delete_profile 10 two_profiles).1).2
    = inl (mkHTTPException 404 "Profile not found").
Proof.
  assert (succeeded (delete_profile 10 two_profiles) = true) as Hdel
    by (vm_compute; reflexivity).
  split; [exact Hdel|].
  destruct (deleted_ids_are_not_found two_profiles) as [_ Hprof].
  destruct (Hprof 10%N empty_profile_patch Hdel) as (-> & _). reflexivity.
Defined.

Lemma create_profile_accepts_witness :
  is_Some (users two_users !! ProfileCreate.user_id profile_bob)
  ∧ (create_profile 20 profile_bob two_users).2
    = inr (profile_of_create 20 profile_bob).
Proof.
  assert (is_Some (users two_users !! ProfileCreate.user_id profile_bob)) as Hlive
    by (vm_compute; eauto).
  split; [exact Hlive|].
  rewrite (create_profile_accepts 20 profile_bob two_users Hlive).
  - reflexivity.
  - vm_compute. reflexivity.
  - intros k p Hk. vm_compute in Hk. discriminate Hk.
Defined.

Lemma create_profile_error_order_witness :
  (create_profile 30 profile_ALICE_for_B (serve two_profiles (DeleteUser 2))).2
  = inl (mkHTTPException 400 "User does not exist")
  ∧ detail (mkHTTPException 400 "User does not exist") = "User does not exist".
Proof.
  assert ((create_profile 30 profile_ALICE_for_B
             (serve two_profiles (DeleteUser 2))).2
          = inl (mkHTTPException 400 "User does not exist")) as Hfail
    by (vm_compute; reflexivity).
  split; [exact Hfail|].
  destruct (create_profile_error_order _ _ _ _ Hfail) as [_ ->].
  vm_compute. reflexivity.
Defined.

Lemma raised_status_by_request_witness :
  (handle (DeleteUser 7) two_users).2 = inl (mkHTTPException 404 "User not found")
  ∧ 404 ∈ raisable (DeleteUser 7).
Proof.
  assert ((handle (DeleteUser 7) two_users).2
          = inl (mkHTTPException 404 "User not found")) as Hfail
    by (vm_compute; reflexivity).
  split; [exact Hfail|].
  exact (raised_status_by_request _ _ _ Hfail).
Defined.

Lemma empty_patch_is_identity_witness :
  profiles two_profiles !! 20%N = Some (profile_of_create 20 profile_bob)
  ∧ update_profile 20 empty_profile_patch two_profiles
    = (two_profiles, inr (profile_of_create 20 profile_bob)).
Proof.
  assert (profiles two_profiles !! 20%N = Some (profile_of_create 20 profile_bob))
    as Hcur by (vm_compute; reflexivity).
  split; [exact Hcur|].
  destruct (empty_patch_is_identity two_profiles) as [_ Hprof].
  exact (Hprof 20%N _ Hcur).
Defined.

Lemma stores_are_separate_witness :
  profile_request (DeleteProfile 10) = true
  ∧ users (serve two_profiles (DeleteProfile 10)) = users two_profiles.
Proof.
  split; [reflexivity|].
  destruct (stores_are_separate two_profiles (DeleteProfile 10)) as [_ Hprof].
  apply Hprof. reflexivity.
Defined.

Lemma other_records_untouched_witness :
  addressed (UpdateUser 1 patch_password) ≠ Some 2%N
  ∧ user_secrets (serve two_users (UpdateUser 1 patch_password)) !! 2%N
    = user_secrets two_users !! 2%N.
Proof.
  assert (addressed (UpdateUser 1 patch_password) ≠ Some 2%N) as Hk by (by intros [=]).
  split; [exact Hk|].
  apply (other_records_untouched two_users (UpdateUser 1 patch_password) 2 Hk).
Defined.

Lemma update_user_replaces_password_witness :
  UserUpdate.new_password patch_password = Some "new-pw"
  ∧ (update_user 1 patch_password two_users).2 = inr (user_of_create 1 0 user_A)
  ∧ user_secrets (update_user 1 patch_password two_users).1 !! 1%N
    = Some (mkSecret "new-pw").
Proof.
  assert ((update_user 1 patch_password two_users).2
          = inr (user_of_create 1 0 user_A)) as Hupd by (vm_compute; reflexivity).
  split; [reflexivity|]. split; [exact Hupd|].
  destruct (update_user_replaces_password two_users 1 patch_password "new-pw" _
              eq_refl Hupd) as [Hsecret _].
  exact Hsecret.
Defined.

Lemma create_user_error_order_witness :
  (create_user 3 0 user_B_same_email two_users).2
  = inl (mkHTTPException 400 "Email already exists")
  ∧ status_code (mkHTTPException 400 "Email already exists") = 400.
Proof.
  assert ((create_user 3 0 user_B_same_email two_users).2
          = inl (mkHTTPException 400 "Email already exists")) as Hfail
    by (vm_compute; reflexivity).
  split; [exact Hfail|].
  destruct (create_user_error_order _ _ _ _ _ Hfail) as [Hcode _]. exact Hcode.
Defined.

(** ** Letter case in the sample runs *)

Lemma list_users_spec_witness :
  ∃ l, (list_users None (Some "A@X.COM") (Some "1") None two_users).2 = inr l
       ∧ user_of_create 1 0 user_A ∈ l
       ∧ user_of_create 2 0 user_B ∉ l
       ∧ NoDup l.
Proof.
  destruct (list_users_spec None (Some "A@X.COM") (Some "1") None two_users)
    as (l & Hl & Hmem & Hnodup).
  exists l. split; [by rewrite Hl|]. split; [|split].
  - apply Hmem. split; [exists 1%N; vm_compute; reflexivity|].
    repeat split; intros x [= <-]; vm_compute; reflexivity.
  - intros Hin. apply Hmem in Hin as (_ & _ & He & _).
    specialize (He _ eq_refl). vm_compute in He. discriminate He.
  - apply Hnodup, two_users_inv.
Defined.

Lemma list_profiles_spec_witness :
  ∃ l, (list_profiles (Some 1%N) (Some "ALICE") two_profiles).2 = inr l
       ∧ profile_of_create 10 profile_alice ∈ l
       ∧ profile_of_create 20 profile_bob ∉ l
       ∧ NoDup l.
Proof.
  destruct (list_profiles_spec (Some 1%N) (Some "ALICE") two_profiles)
    as (l & Hl & Hmem & Hnodup).
  exists l. split; [by rewrite Hl|]. split; [|split].
  - apply Hmem. split; [exists 10%N; vm_compute; reflexivity|].
    split; intros x [= <-]; vm_compute; reflexivity.
  - intros Hin. apply Hmem in Hin as (_ & Ho & _).
    specialize (Ho _ eq_refl). vm_compute in Ho. discriminate Ho.
  - apply Hnodup, two_profiles_inv.
Defined.

Lemma find_user_by_email_spec_witness :
  _find_user_by_email "A@X.COM" two_users = Some (user_of_create 1 0 user_A)
  ∧ _email_exists "A@X.COM" None two_users = true
  ∧ _find_user_by_email "c@x.com" two_users = None
  ∧ _email_exists "c@x.com" None two_users = false.
Proof.
  assert (_find_user_by_email "A@X.COM" two_users = Some (user_of_create 1 0 user_A))
    as Hfound by (vm_compute; reflexivity).
  assert (_find_user_by_email "c@x.com" two_users = None) as Hnone
    by (vm_compute; reflexivity).
  pose proof (find_user_by_email_spec "A@X.COM" two_users) as Hspec1.
  pose proof (find_user_by_email_spec "c@x.com" two_users) as Hspec2.
  rewrite Hfound in Hspec1. rewrite Hnone in Hspec2.
  destruct Hspec1 as (_ & _ & Hex). destruct Hspec2 as (_ & Hnex).
  done.
Defined.

Lemma create_profile_rejects_owner_witness :
  index_covers user_with_profile
  ∧ profiles user_with_profile !! 10%N = Some (profile_of_create 10 profile_alice)
  ∧ failed_with 400 (create_profile 11 profile_carol_for_A user_with_profile).
Proof.
  assert (profiles user_with_profile !! 10%N
          = Some (profile_of_create 10 profile_alice)) as Hk
    by (vm_compute; reflexivity).
  split; [apply user_with_profile_inv|]. split; [exact Hk|].
  apply (create_profile_rejects_owner 11 profile_carol_for_A user_with_profile 10
           (profile_of_create 10 profile_alice));
    [apply user_with_profile_inv | exact Hk | reflexivity].
Defined.

Example lower_on_sample_strings :
  lower "A@X.COM" = "a@x.com" ∧ lower "ALICE" = "alice" ∧ lower "b@x.com" = "b@x.com".
Proof. vm_compute. done. Qed.
